(** * SportsLLM: the chat proxy with tool calling and the NBA capability functions

    A shallow embedding of
    - [open_webui/custom_llm_server_with_tools.py] ([chat] / [generate_response]),
    - [open_webui/nba_tools.py] ([get_player_info], [get_team_info],
      [get_game_info], mock-data mode and provider mode),
    - the system-message injection shared with [custom_llm_server.py].

    Byte strings ([bytes] chunks of the upstream HTTP stream) are [string]s,
    i.e. lists of 8-bit [ascii] characters.  The decoder [json.loads], the
    external [ollama_tools.use_tools] and the upstream backend are parameters:
    every theorem holds for any of them.  A concrete decoder for a subset of
    JSON is given for the concrete runs. *)

From Stdlib Require Import String Ascii List Bool Arith ZArith Lia.
Import ListNotations.
Open Scope string_scope.
Set Warnings "-register-all".

(* ================================================================== *)
(** ** JSON values as returned by [json.loads] *)

Inductive json : Type :=
| JNull
| JBool (b : bool)
| JNum (lexeme : string)
| JStr (s : string)
| JArr (l : list json)
| JObj (kvs : list (string * json)).

(** The outcome of [json.loads(chunk.decode('utf-8'))]: a value, a
    [json.JSONDecodeError], or a [UnicodeDecodeError] raised by
    [bytes.decode] (which is not a [JSONDecodeError]). *)
Inductive decoded : Type :=
| DecOk (j : json)
| DecJSONError
| DecUnicodeError (msg : string).

(* ------------------------------------------------------------------ *)
(** ** Python helpers on strings and JSON values *)

Definition dq : ascii := ascii_of_nat 34.
Definition backslash : ascii := ascii_of_nat 92.

(** [str.lower()] on ASCII text. *)
Definition lower_char (c : ascii) : ascii :=
  let n := nat_of_ascii c in
  if (65 <=? n)%nat && (n <=? 90)%nat then ascii_of_nat (n + 32)%nat else c.

Fixpoint py_lower (s : string) : string :=
  match s with
  | EmptyString => EmptyString
  | String c r => String (lower_char c) (py_lower r)
  end.

(** [a in b] for two strings: [a] is a substring of [b]. *)
Fixpoint py_str_in (a b : string) : bool :=
  match b with
  | EmptyString => String.prefix a b
  | String _ r => String.prefix a b || py_str_in a r
  end.

(** Python truthiness of a JSON value ([if x:]). *)
Definition num_is_zero (lex : string) : bool :=
  let fix go (l : list ascii) : bool :=
    match l with
    | [] => true
    | c :: r =>
        if Ascii.eqb c "e" || Ascii.eqb c "E" then true
        else if Ascii.eqb c "0" || Ascii.eqb c "-" || Ascii.eqb c "." then go r
        else false
    end in
  go (list_ascii_of_string lex).

Definition truthy (j : json) : bool :=
  match j with
  | JNull => false
  | JBool b => b
  | JNum s => negb (num_is_zero s)
  | JStr s => negb (String.eqb s "")
  | JArr l => negb (match l with [] => true | _ => false end)
  | JObj kvs => negb (match kvs with [] => true | _ => false end)
  end.

(** [type(v).__name__] of a decoded value.  [json.loads] makes a number an
    [int] when its lexeme is an optional minus and digits only, and a
    [float] otherwise (a fraction, an exponent, [NaN], [Infinity]). *)
Definition py_type_name (j : json) : string :=
  match j with
  | JNull => "NoneType"
  | JBool _ => "bool"
  | JNum s => if forallb (fun c => Ascii.eqb c "-" ||
                              (Nat.leb 48 (nat_of_ascii c) && Nat.leb (nat_of_ascii c) 57))
                   (list_ascii_of_string s)
              then "int" else "float"
  | JStr _ => "str"
  | JArr _ => "list"
  | JObj _ => "dict"
  end.

(** [k in v] for a string [k]; [inl] carries the message of the
    [TypeError] Python raises on a non-container. *)
Definition py_contains (k : string) (v : json) : string + bool :=
  match v with
  | JObj kvs => inr (existsb (fun kv => String.eqb (fst kv) k) kvs)
  | JArr l => inr (existsb (fun j => match j with
                                     | JStr s => String.eqb s k
                                     | _ => false
                                     end) l)
  | JStr s => inr (py_str_in k s)
  | _ => inl ("argument of type '" ++ py_type_name v ++ "' is not iterable")
  end.

(** [v[k]] for a string [k]; a decoded object keeps the last binding of a
    duplicated key. *)
Definition py_getitem (v : json) (k : string) : string + json :=
  match v with
  | JObj kvs =>
      match find (fun kv => String.eqb (fst kv) k) (rev kvs) with
      | Some (_, x) => inr x
      | None => inl ("'" ++ k ++ "'")
      end
  | JArr _ => inl "list indices must be integers or slices, not str"
  | JStr _ => inl "string indices must be integers, not 'str'"
  | _ => inl ("'" ++ py_type_name v ++ "' object is not subscriptable")
  end.

(** The detection test of the chunk loop:
    [if 'message' in chunk_data and 'tool_calls' in chunk_data['message']:
        tool_calls = chunk_data['message']['tool_calls']].
    [inr (Some tc)]: the loop breaks with [tool_calls = tc];
    [inr None]: no tool call in this chunk; [inl e]: a [TypeError] or
    [KeyError] escapes the [except json.JSONDecodeError] handler. *)
Definition tool_calls_of (chunk_data : json) : string + option json :=
  match py_contains "message" chunk_data with
  | inl e => inl e
  | inr false => inr None
  | inr true =>
      match py_getitem chunk_data "message" with
      | inl e => inl e
      | inr m =>
          match py_contains "tool_calls" m with
          | inl e => inl e
          | inr false => inr None
          | inr true =>
              match py_getitem m "tool_calls" with
              | inl e => inl e
              | inr tc => inr (Some tc)
              end
          end
      end
  end.

(* ------------------------------------------------------------------ *)
(** ** A concrete [json.loads(chunk.decode('utf-8'))]

    [bytes.decode('utf-8')] in strict mode, then a decoder for the JSON the
    concrete streams below use: objects, arrays, strings with the escapes
    of a quote, backslash, slash, b, f, n, r and t, numbers without
    exponent, [true], [false], [null], surrounding whitespace; trailing
    data is rejected as Python's Extra data error.  It only serves to
    build concrete inputs; the server model takes the decoder as a
    parameter. *)

Definition in_range (lo hi b : nat) : bool := (lo <=? b)%nat && (b <=? hi)%nat.
Definition cont_byte (b : nat) : bool := in_range 128 191 b.

Fixpoint utf8_valid (l : list nat) : bool :=
  match l with
  | [] => true
  | b :: r =>
      if (b <? 128)%nat then utf8_valid r
      else if in_range 194 223 b then
        match r with
        | c :: r' => cont_byte c && utf8_valid r'
        | [] => false
        end
      else if in_range 224 239 b then
        match r with
        | c1 :: c2 :: r' =>
            (if (b =? 224)%nat then in_range 160 191 c1
             else if (b =? 237)%nat then in_range 128 159 c1
             else cont_byte c1) && cont_byte c2 && utf8_valid r'
        | _ => false
        end
      else if in_range 240 244 b then
        match r with
        | c1 :: c2 :: c3 :: r' =>
            (if (b =? 240)%nat then in_range 144 191 c1
             else if (b =? 244)%nat then in_range 128 143 c1
             else cont_byte c1) && cont_byte c2 && cont_byte c3 && utf8_valid r'
        | _ => false
        end
      else false
  end.

Definition is_ws (c : ascii) : bool :=
  Ascii.eqb c " " || Ascii.eqb c (ascii_of_nat 9) || Ascii.eqb c (ascii_of_nat 10)
  || Ascii.eqb c (ascii_of_nat 13).

Fixpoint skip_ws (l : list ascii) : list ascii :=
  match l with
  | c :: r => if is_ws c then skip_ws r else l
  | [] => []
  end.

Definition is_digit (c : ascii) : bool := in_range 48 57 (nat_of_ascii c).

Fixpoint take_digits (l : list ascii) : list ascii * list ascii :=
  match l with
  | c :: r => if is_digit c then let (d, r') := take_digits r in (c :: d, r') else ([], l)
  | [] => ([], [])
  end.

Definition escape_char (e : ascii) : option ascii :=
  if Ascii.eqb e dq then Some dq
  else if Ascii.eqb e backslash then Some backslash
  else if Ascii.eqb e "/" then Some "/"%char
  else if Ascii.eqb e "b" then Some (ascii_of_nat 8)
  else if Ascii.eqb e "f" then Some (ascii_of_nat 12)
  else if Ascii.eqb e "n" then Some (ascii_of_nat 10)
  else if Ascii.eqb e "r" then Some (ascii_of_nat 13)
  else if Ascii.eqb e "t" then Some (ascii_of_nat 9)
  else None.

(** The body of a string literal after its opening quote. *)
Fixpoint parse_str_body (l : list ascii) (acc : list ascii) : option (string * list ascii) :=
  match l with
  | [] => None
  | c :: r =>
      if Ascii.eqb c dq then Some (string_of_list_ascii (rev acc), r)
      else if Ascii.eqb c backslash then
        match r with
        | e :: r' => match escape_char e with
                     | Some x => parse_str_body r' (x :: acc)
                     | None => None
                     end
        | [] => None
        end
      else if (nat_of_ascii c <? 32)%nat then None
      else parse_str_body r (c :: acc)
  end.

(** A number: an optional minus sign, an integer part without leading
    zero, an optional fraction. *)
Definition parse_number (l : list ascii) : option (json * list ascii) :=
  let (sign, l1) := match l with
                    | c :: r => if Ascii.eqb c "-" then (["-"%char], r) else ([], l)
                    | [] => ([], [])
                    end in
  match take_digits l1 with
  | ([], _) => None
  | (d, l2) =>
      if (Ascii.eqb (hd "a"%char d) "0" && (1 <? length d)%nat) then None else
      match l2 with
      | c :: r =>
          if Ascii.eqb c "." then
            match take_digits r with
            | ([], _) => None
            | (f, l3) => Some (JNum (string_of_list_ascii (sign ++ d ++ "."%char :: f)), l3)
            end
          else Some (JNum (string_of_list_ascii (sign ++ d)), l2)
      | [] => Some (JNum (string_of_list_ascii (sign ++ d)), l2)
      end
  end.

Fixpoint match_word (w : list ascii) (l : list ascii) : option (list ascii) :=
  match w, l with
  | [], _ => Some l
  | a :: w', c :: l' => if Ascii.eqb a c then match_word w' l' else None
  | _ :: _, [] => None
  end.

Fixpoint parse_value (fuel : nat) (l : list ascii) {struct fuel} : option (json * list ascii) :=
  match fuel with
  | O => None
  | S f =>
      match skip_ws l with
      | [] => None
      | c :: r =>
          if Ascii.eqb c "{" then
            match skip_ws r with
            | c' :: r' => if Ascii.eqb c' "}" then Some (JObj [], r')
                          else parse_members f (skip_ws r) []
            | [] => None
            end
          else if Ascii.eqb c "[" then
            match skip_ws r with
            | c' :: r' => if Ascii.eqb c' "]" then Some (JArr [], r')
                          else parse_elems f (skip_ws r) []
            | [] => None
            end
          else if Ascii.eqb c dq then
            match parse_str_body r [] with
            | Some (s, r') => Some (JStr s, r')
            | None => None
            end
          else if Ascii.eqb c "t" then
            option_map (fun r' => (JBool true, r')) (match_word (list_ascii_of_string "rue") r)
          else if Ascii.eqb c "f" then
            option_map (fun r' => (JBool false, r')) (match_word (list_ascii_of_string "alse") r)
          else if Ascii.eqb c "n" then
            option_map (fun r' => (JNull, r')) (match_word (list_ascii_of_string "ull") r)
          else parse_number (c :: r)
      end
  end
with parse_members (fuel : nat) (l : list ascii) (acc : list (string * json))
  {struct fuel} : option (json * list ascii) :=
  match fuel with
  | O => None
  | S f =>
      match skip_ws l with
      | c :: r =>
          if Ascii.eqb c dq then
            match parse_str_body r [] with
            | Some (k, r1) =>
                match skip_ws r1 with
                | c1 :: r2 =>
                    if Ascii.eqb c1 ":" then
                      match parse_value f r2 with
                      | Some (v, r3) =>
                          match skip_ws r3 with
                          | c3 :: r4 =>
                              if Ascii.eqb c3 "," then parse_members f r4 ((k, v) :: acc)
                              else if Ascii.eqb c3 "}" then Some (JObj (rev ((k, v) :: acc)), r4)
                              else None
                          | [] => None
                          end
                      | None => None
                      end
                    else None
                | [] => None
                end
            | None => None
            end
          else None
      | [] => None
      end
  end
with parse_elems (fuel : nat) (l : list ascii) (acc : list json)
  {struct fuel} : option (json * list ascii) :=
  match fuel with
  | O => None
  | S f =>
      match parse_value f l with
      | Some (v, r) =>
          match skip_ws r with
          | c :: r' =>
              if Ascii.eqb c "," then parse_elems f r' (v :: acc)
              else if Ascii.eqb c "]" then Some (JArr (rev (v :: acc)), r')
              else None
          | [] => None
          end
      | None => None
      end
  end.

(** [json.loads(chunk.decode('utf-8'))] on a chunk. *)
Definition json_loads (chunk : string) : decoded :=
  let l := list_ascii_of_string chunk in
  if utf8_valid (map nat_of_ascii l) then
    match parse_value (3 * length l + 3) l with
    | Some (j, rest) => match skip_ws rest with
                        | [] => DecOk j
                        | _ => DecJSONError
                        end
    | None => DecJSONError
    end
  else DecUnicodeError "'utf-8' codec can't decode bytes".

(** Writes a JSON text with single quotes in place of double quotes. *)
Definition jq (s : string) : string :=
  string_of_list_ascii
    (map (fun c => if Ascii.eqb c "'" then dq else c) (list_ascii_of_string s)).

(* ================================================================== *)
(** ** Data of [POST /api/chat] *)

Record Msg := mkMsg { role : string; content : string }.

(** The decoded request body [data]: [messages] and [model] may be absent,
    [stream] is any JSON value ([data.get("stream", True)]), [metadata] is
    absent ([None]), an object without [task] ([Some None]) or an object
    with [task] ([Some (Some t)]). *)
Record ChatReq := mkChatReq {
  cr_messages : option (list Msg);
  cr_model : option string;
  cr_stream : option json;
  cr_metadata : option (option json)
}.

(** The JSON body of one upstream [POST /api/chat]; [up_tools = None] when
    the body has no ['tools'] key. *)
Record UpReq := mkUpReq {
  up_model : string;
  up_messages : list Msg;
  up_tools : option (list json);
  up_stream : json
}.

(** One upstream response as seen through [response.aiter_bytes()]: the
    chunks delivered, then either a normal end or an exception (connection
    refused before any chunk, connection dropped, ...) with its [str(e)]. *)
Inductive PassEnd := Completes | Raises (e : string).

Record Pass := mkPass { p_chunks : list string; p_end : PassEnd }.

(** What the generator yields: a raw chunk, the [accumulated_response]
    (the concatenation of the listed chunks), or
    [json.dumps({"error": m}).encode()]. *)
Inductive Out := OChunk (c : string) | OBytes (cs : list string) | OError (m : string).

(** The observable events of one request, in order. *)
Inductive event :=
| EUpstream (r : UpReq)
| EUseTools (tc : json) (res : string + string)
| EYield (o : Out).

Record outcome := mkOutcome { o_trace : list event; o_finished : bool }.

Definition tools_system_prompt : string :=
  "You are an assistant with access to tools, if you do not have a tool to deal with the user's request but you think you can answer do it so, if not explain your capabilities".

Definition plain_system_prompt : string := "You are a helpful AI assistant.".

Definition is_system (m : Msg) : bool := String.eqb (role m) "system".

(** [if not any(msg["role"] == "system" for msg in data["messages"]):
        data["messages"].insert(0, {"role": "system", "content": ...})]
    (the same step in both servers, with their own prompt). *)
Definition inject_system (prompt : string) (msgs : list Msg) : list Msg :=
  if existsb is_system msgs then msgs else mkMsg "system" prompt :: msgs.

Definition max_retries : nat := 10.

Definition default_model : string := "llama3.2:1b".

Definition is_housekeeping_task (t : json) : bool :=
  match t with
  | JStr s => String.eqb s "tags_generation" || String.eqb s "title_generation"
              || String.eqb s "autocomplete_generation"
  | _ => false
  end.

(** [function_call] after the [metadata] checks. *)
Definition function_call (md : option (option json)) : bool :=
  match md with
  | Some (Some t) => negb (is_housekeeping_task t)
  | _ => true
  end.

Definition is_streaming (data : ChatReq) : json :=
  match cr_stream data with Some j => j | None => JBool true end.


Definition count_system (msgs : list Msg) : nat := length (filter is_system msgs).

(* ================================================================== *)
(** ** [generate_response] of [POST /api/chat] (with-tools server) *)

Section ChatServer.

(** [json.loads(chunk.decode('utf-8'))]. *)
Variable loads : string -> decoded.
(** [ollama_tools.use_tools(tool_calls, functions)]: an exception message or
    the result placed in the tool message. *)
Variable use_tools : json -> string + string.
(** The module-level [tools] descriptor list. *)
Variable tools : list json.

(** The outcome of the [async for chunk in response.aiter_bytes()] loop of a
    tool-seeking pass: an exception escaping the [try] (with what was yielded
    before), or the end of the loop (normal end or [break]) with what was
    yielded, the [accumulated_response] chunks and [tool_calls]. *)
Inductive scan_res :=
| ScanRaise (ys : list Out) (e : string)
| ScanEnd (ys : list Out) (acc : list string) (tc : option json).

(** [if is_streaming: yield chunk else: accumulated_response += chunk],
    then the rest of the loop. *)
Definition relay_cons (streaming : bool) (c : string) (r : scan_res) : scan_res :=
  match r with
  | ScanRaise ys e => ScanRaise (if streaming then OChunk c :: ys else ys) e
  | ScanEnd ys acc tc =>
      if streaming then ScanEnd (OChunk c :: ys) acc tc else ScanEnd ys (c :: acc) tc
  end.

Fixpoint scan (streaming : bool) (cs : list string) (fin : PassEnd) : scan_res :=
  match cs with
  | [] => match fin with
          | Completes => ScanEnd [] [] None
          | Raises e => ScanRaise [] e
          end
  | c :: rest =>
      match loads c with
      | DecUnicodeError e => ScanRaise [] e
      | DecJSONError => relay_cons streaming c (scan streaming rest fin)
      | DecOk j =>
          match tool_calls_of j with
          | inl e => ScanRaise [] e
          | inr (Some tc) => ScanEnd [] [] (Some tc)
          | inr None => relay_cons streaming c (scan streaming rest fin)
          end
      end
  end.

(** One iteration of the [while] body up to the [except] clause. *)
Inductive step_res :=
| StepFail (tr : list event) (e : string)
| StepNoTool (tr : list event)
| StepTool (tr : list event) (result : string).

Definition attempt (stream_flag : json) (req : UpReq) (p : Pass) : step_res :=
  let streaming := truthy stream_flag in
  match scan streaming (p_chunks p) (p_end p) with
  | ScanRaise ys e => StepFail (EUpstream req :: map EYield ys) e
  | ScanEnd ys acc tc =>
      let tr := EUpstream req :: map EYield ys
                ++ (if streaming then [] else [EYield (OBytes acc)]) in
      match tc with
      | Some t =>
          if truthy t then
            match use_tools t with
            | inl e => StepFail (tr ++ [EUseTools t (inl e)]) e
            | inr r => StepTool (tr ++ [EUseTools t (inr r)]) r
            end
          else StepNoTool tr
      | None => StepNoTool tr
      end
  end.

(** The [while retry_count < max_retries and not tool_call_success] loop.
    [backend n] is the response to the [n]-th upstream call of the request;
    [fuel] bounds the number of iterations ([LoopFuel]: not finished). *)
Inductive loop_res :=
| LoopSuccess (tr : list event) (result : string) (next_call : nat)
| LoopStop (tr : list event)
| LoopFuel (tr : list event).

Definition loop_prepend (tr : list event) (l : loop_res) : loop_res :=
  match l with
  | LoopSuccess tr' r n => LoopSuccess (tr ++ tr') r n
  | LoopStop tr' => LoopStop (tr ++ tr')
  | LoopFuel tr' => LoopFuel (tr ++ tr')
  end.

Definition exhausted_message (e : string) : string :=
  "Failed to execute tool call after 10 attempts: " ++ e.

Fixpoint retry_loop (fuel : nat) (backend : nat -> Pass) (call retry_count : nat)
  (stream_flag : json) (req : UpReq) : loop_res :=
  match fuel with
  | O => LoopFuel []
  | S f =>
      if (retry_count <? max_retries)%nat then
        match attempt stream_flag req (backend call) with
        | StepTool tr r => LoopSuccess tr r (S call)
        | StepNoTool tr =>
            loop_prepend tr (retry_loop f backend (S call) retry_count stream_flag req)
        | StepFail tr e =>
            if (S retry_count <? max_retries)%nat then
              loop_prepend tr (retry_loop f backend (S call) (S retry_count) stream_flag req)
            else LoopStop (tr ++ [EYield (OError (exhausted_message e))])
        end
      else LoopStop []
  end.

(** A pass relayed chunk by chunk; an exception reaches the outer
    [except Exception as e: yield json.dumps({"error": str(e)})]. *)
Fixpoint relay_stream (cs : list string) (fin : PassEnd) : list Out :=
  match cs with
  | [] => match fin with Completes => [] | Raises e => [OError e] end
  | c :: r => OChunk c :: relay_stream r fin
  end.

(** The second upstream pass after the tool result. *)
Definition relay_second (streaming : bool) (p : Pass) : list Out :=
  if streaming then relay_stream (p_chunks p) (p_end p)
  else match p_end p with
       | Completes => [OBytes (p_chunks p)]
       | Raises e => [OError e]
       end.

Definition req_model (data : ChatReq) : string :=
  match cr_model data with Some m => m | None => default_model end.

(** [messages] of the tool path: [data.get('messages', [])] after injection. *)
Definition tool_path_messages (data : ChatReq) : list Msg :=
  match cr_messages data with
  | Some m => inject_system tools_system_prompt m
  | None => []
  end.

Definition first_request (data : ChatReq) : UpReq :=
  mkUpReq (req_model data) (tool_path_messages data) (Some tools) (is_streaming data).

Definition second_request (data : ChatReq) (result : string) : UpReq :=
  mkUpReq (req_model data) (tool_path_messages data ++ [mkMsg "tool" result]) None
    (is_streaming data).

Definition bypass_request (data : ChatReq) (msgs : list Msg) : UpReq :=
  mkUpReq default_model msgs None (is_streaming data).

Definition generate_response (fuel : nat) (backend : nat -> Pass) (data : ChatReq) : outcome :=
  let stream_flag := is_streaming data in
  if function_call (cr_metadata data) then
    match retry_loop fuel backend 0 0 stream_flag (first_request data) with
    | LoopFuel tr => mkOutcome tr false
    | LoopStop tr => mkOutcome tr true
    | LoopSuccess tr r call =>
        mkOutcome (tr ++ EUpstream (second_request data r)
                      :: map EYield (relay_second (truthy stream_flag) (backend call))) true
    end
  else
    match cr_messages data with
    | None => mkOutcome [EYield (OError "'messages'")] true
    | Some m =>
        let p := backend 0 in
        mkOutcome (EUpstream (bypass_request data (inject_system tools_system_prompt m))
                     :: map EYield (relay_stream (p_chunks p) (p_end p))) true
    end.

End ChatServer.

(* ================================================================== *)
(** ** Module initialisation of the with-tools server *)

(** The module-level names [nba_tools.py] binds: its imports, the mock
    tables, the flags, the path constants, the [dotenv] functions, the
    provider client and the three [def]s that are not commented out. *)
Definition nba_tools_names : list string :=
  ["List"; "Dict"; "Optional"; "Union"; "datetime"; "timedelta";
   "BalldontlieAPI"; "os"; "Path"; "traceback";
   "MOCK_PLAYERS"; "MOCK_TEAMS"; "MOCK_STANDINGS"; "MOCK_LEADERS"; "MOCK_GAMES";
   "MOCK_ODDS"; "MOCK_INJURIES"; "USE_MOCK_DATA"; "DEBUG_MODE";
   "set_debug_mode"; "debug_print"; "set_use_mock_data";
   "OPEN_WEBUI_DIR"; "BACKEND_DIR"; "BASE_DIR"; "find_dotenv"; "load_dotenv"; "api";
   "get_player_info"; "get_team_info"; "get_game_info"].

(** [from nba_tools import (...)] of [custom_llm_server_with_tools.py]. *)
Definition with_tools_imports : list string :=
  ["get_player_injuries"; "get_game_odds"; "get_head_to_head_stats";
   "get_league_leaders"; "get_player_info"; "get_team_info"; "get_team_standings"].

(** [from m import a, b, ...]: the names are bound in order, and the first one
    [m] does not define raises [ImportError]. *)
Definition from_import (module : string) (defined names : list string) : string + list string :=
  match find (fun n => negb (existsb (String.eqb n) defined)) names with
  | Some n => inl ("cannot import name '" ++ n ++ "' from '" ++ module ++ "'")
  | None => inr names
  end.

(** The registry built at import time: [tools] (one descriptor per name, in
    order) and [functions] (name to handler), or the exception that stops
    module initialisation. *)
Record registry := mkRegistry { reg_tools : list string; reg_functions : list (string * string) }.

Definition init_with_tools_server : string + registry :=
  match from_import "nba_tools" nba_tools_names with_tools_imports with
  | inl e => inl e
  | inr bound => inr (mkRegistry bound (map (fun n => (n, n)) bound))
  end.

(* ================================================================== *)
(** ** [nba_tools.py]: the capability functions *)

Record Team := mkTeam {
  t_id : Z; t_name : string; t_full_name : string; t_city : string;
  t_conference : string; t_division : string }.

Record Player := mkPlayer {
  pl_id : Z; first_name : string; last_name : string; position : string;
  height_feet : Z; height_inches : Z; weight_pounds : Z;
  pl_team : Z * string * string (* id, name, full_name *) }.

Record Game := mkGame {
  g_id : Z; g_date : string; home_team : Team; visitor_team : Team;
  home_team_score : Z; visitor_team_score : Z }.

(** The values the functions return: a dict [{"error": m}], a player or team
    record (a mock dict, or the provider's model object), or a Python list
    of games. *)
Inductive PyVal :=
| PError (m : string)
| PPlayer (p : Player)
| PTeam (t : Team)
| PGames (gs : list Game).

Definition is_dict_like (v : PyVal) : bool :=
  match v with PGames _ => false | _ => true end.

(** [MOCK_TEAMS[0]] and [MOCK_TEAMS[1]]. *)
Definition warriors : Team := mkTeam 1 "Warriors" "Golden State Warriors" "Golden State" "West" "Pacific".
Definition lakers : Team := mkTeam 2 "Lakers" "Los Angeles Lakers" "Los Angeles" "West" "Pacific".

Definition MOCK_TEAMS : list Team := [warriors; lakers].


Definition MOCK_PLAYERS : list Player :=
  [mkPlayer 1 "Stephen" "Curry" "G" 6 3 185 (1%Z, "Warriors", "Golden State Warriors");
   mkPlayer 2 "LeBron" "James" "F" 6 9 250 (2%Z, "Lakers", "Los Angeles Lakers")].

Definition MOCK_GAMES : list Game :=
  [mkGame 1 "2024-03-15" warriors lakers 120 115].

(** The provider ([api.nba.*.list(...)]): the [.data] of its response, or
    the message of the exception it raises. *)
Record Provider := mkProvider {
  players_list : string -> string + list Player;
  teams_list : string + list Team;
  games_list : Z -> string + list Game }.

Definition team_matches (team_name : string) (t : Team) : bool :=
  py_str_in (py_lower team_name) (py_lower (t_full_name t))
  || py_str_in (py_lower team_name) (py_lower (t_name t)).

(** The selection after the [matching_teams] loop. *)
Definition select_team (team_name : string) (matching : list Team) : PyVal :=
  if (1 <? length matching)%nat then PError "Multiple teams found. Please use full team name."
  else if (length matching =? 1)%nat then PTeam (nth 0 matching (mkTeam 0 "" "" "" "" ""))
  else PError ("No team found with name " ++ team_name).

Definition get_team_info (use_mock : bool) (api : Provider) (team_name : string) : PyVal :=
  if String.eqb team_name "" then PError "Team name is required"
  else if use_mock then select_team team_name (filter (team_matches team_name) MOCK_TEAMS)
  else match teams_list api with
       | inl e => PError ("Error fetching team info: " ++ e)
       | inr teams => select_team team_name (filter (team_matches team_name) teams)
       end.

Definition player_matches (f l : string) (p : Player) : bool :=
  let full := py_lower (first_name p ++ " " ++ last_name p) in
  py_str_in (py_lower f) full && py_str_in (py_lower l) full.

Definition get_player_info (use_mock : bool) (api : Provider) (f l : string) : PyVal :=
  if String.eqb f "" || String.eqb l "" then PError "First name and last name are required"
  else if use_mock then
    match find (player_matches f l) MOCK_PLAYERS with
    | Some p => PPlayer p
    | None => PError ("No player found with name " ++ f ++ " " ++ l)
    end
  else match players_list api f with
       | inl e => PError ("Error fetching player info: " ++ e)
       | inr [] => PError ("No player found with name " ++ f ++ " " ++ l)
       | inr (p :: _) => PPlayer p
       end.

Definition get_game_info (use_mock : bool) (api : Provider) (season : Z) (home away : string) : PyVal :=
  if String.eqb home "" then PError "home_team name is required"
  else if String.eqb away "" then PError "away_team name is required"
  else if Z.eqb season 0 then PError "season name is required"
  else if use_mock then
    let m := filter (fun g => String.eqb (py_lower (t_name (home_team g))) (py_lower home)
                              && String.eqb (py_lower (t_name (visitor_team g))) (py_lower away))
               MOCK_GAMES in
    if (1 <=? length m)%nat then PGames m else PError "No games found"
  else match games_list api season with
       | inl e => PError ("Error fetching game info: " ++ e)
       | inr gs =>
           let m := filter (fun g => py_str_in (py_lower home) (py_lower (t_name (home_team g)))
                                     && py_str_in (py_lower away) (py_lower (t_name (visitor_team g))))
                      gs in
           if (1 <=? length m)%nat then PGames m else PError "No games found"
       end.

(* ================================================================== *)
(** ** Observations on a run *)

Definition yields_of (tr : list event) : list Out :=
  flat_map (fun ev => match ev with EYield o => [o] | _ => [] end) tr.

Definition upstream_calls (tr : list event) : list UpReq :=
  flat_map (fun ev => match ev with EUpstream r => [r] | _ => [] end) tr.

Definition use_tools_calls (tr : list event) : list (json * (string + string)) :=
  flat_map (fun ev => match ev with EUseTools t r => [(t, r)] | _ => [] end) tr.

Definition successful_use_tools (tr : list event) : nat :=
  length (filter (fun x => match snd x with inr _ => true | inl _ => false end)
                 (use_tools_calls tr)).

Definition is_error_out (o : Out) : bool := match o with OError _ => true | _ => false end.




(* ================================================================== *)
(** ** Concrete inputs *)

Module Ex.

(** A descriptor list of the shape [generate_function_description] builds. *)
Definition tools : list json :=
  map (fun n => JObj [("type", JStr "function"); ("function", JObj [("name", JStr n)])])
    with_tools_imports.

(** A dispatcher by exact name over the three defined capabilities:
    [functions[name]] raises [KeyError] on any other name. *)
Definition use_tools (tc : json) : string + string :=
  match tc with
  | JArr (call :: _) =>
      match py_getitem call "function" with
      | inr f =>
          match py_getitem f "name" with
          | inr (JStr n) =>
              if existsb (String.eqb n) ["get_player_info"; "get_team_info"; "get_game_info"]
              then inr (n ++ " result") else inl ("'" ++ n ++ "'")
          | inr _ => inl "'name'"
          | inl e => inl e
          end
      | inl e => inl e
      end
  | _ => inl "'function'"
  end.

Definition answer_chunk : string :=
  jq "{'message': {'role': 'assistant', 'content': 'Hi'}, 'done': true}".

Definition tool_chunk : string :=
  jq "{'message': {'role': 'assistant', 'content': '', 'tool_calls': [{'function': {'name': 'get_team_info', 'arguments': {'team_name': 'Lakers'}}}]}, 'done': false}".

Definition bad_tool_chunk : string :=
  jq "{'message': {'role': 'assistant', 'content': '', 'tool_calls': [{'function': {'name': 'get_weather', 'arguments': {'city': 'Boston'}}}]}, 'done': false}".

(** [tool_chunk] cut in two by the transport. *)
Definition frag1 : string :=
  jq "{'message': {'role': 'assistant', 'content': '', 'tool_calls': [{'function': {'name': 'get_te".
Definition frag2 : string :=
  jq "am_info', 'arguments': {'team_name': 'Lakers'}}}]}, 'done': false}".

Definition final_chunk : string :=
  jq "{'message': {'role': 'assistant', 'content': 'The Lakers play in the West.'}, 'done': true}".

Definition req_stream : ChatReq := mkChatReq (Some [mkMsg "user" "hi"]) None None None.
Definition req_title : ChatReq :=
  mkChatReq (Some [mkMsg "user" "Who leads the West?"]) None None
    (Some (Some (JStr "title_generation"))).

(** Upstream behaviours, by call number. *)
Definition backend_direct (_ : nat) : Pass := mkPass [answer_chunk] Completes.
Definition backend_drop (_ : nat) : Pass :=
  mkPass [answer_chunk] (Raises "peer closed connection without sending complete message body").
Definition backend_split (_ : nat) : Pass := mkPass [frag1; frag2] Completes.
Definition backend_tool (n : nat) : Pass :=
  if (n =? 0)%nat then mkPass [tool_chunk] Completes else mkPass [final_chunk] Completes.
Definition backend_bad_tool (_ : nat) : Pass := mkPass [bad_tool_chunk] Completes.

(** A provider with no network: every call raises. *)
Definition offline : Provider :=
  mkProvider (fun _ => inl "Connection refused") (inl "Connection refused")
    (fun _ => inl "Connection refused").

Definition run (fuel : nat) (backend : nat -> Pass) (data : ChatReq) : outcome :=
  generate_response json_loads use_tools tools fuel backend data.

Definition tool_loop : loop_res :=
  retry_loop json_loads use_tools 5 backend_tool 0 0 (is_streaming req_stream)
    (first_request tools req_stream).

End Ex.

(* ================================================================== *)
(** ** The forwarding endpoints: [POST /api/chat] of the two servers
    without tools, and [POST /api/generate] of all three servers *)

(** Here the decoded body [data] is kept as the JSON value it is, so that
    the Python operations on it ([in], [[]], [.get], item assignment,
    [.insert], iteration) are those of its actual type. An object stands for
    the Python dict [json.loads] builds: a repeated key is read at its last
    binding, as [py_getitem] does. *)

(** The keys of a dict, in insertion order, each once. *)
Fixpoint dict_keys (seen : list string) (kvs : list (string * json)) : list string :=
  match kvs with
  | [] => []
  | (k, _) :: r =>
      if existsb (String.eqb k) seen then dict_keys seen r else k :: dict_keys (k :: seen) r
  end.

(** [iter(v)], the items a [for] loop visits: the elements of a list, the
    keys of a dict, the characters of a string (here one item per byte, the
    uses below only depend on the first item); other values raise
    [TypeError]. *)
Definition py_iter (v : json) : string + list json :=
  match v with
  | JArr l => inr l
  | JObj kvs => inr (map JStr (dict_keys [] kvs))
  | JStr s => inr (map (fun c => JStr (String c EmptyString)) (list_ascii_of_string s))
  | _ => inl ("'" ++ py_type_name v ++ "' object is not iterable")
  end.

Definition replace_key (k : string) (x : json) (kv : string * json) : string * json :=
  if String.eqb (fst kv) k then (k, x) else kv.

(** [v[k] = x] for a string [k]: a dict keeps an existing key in place and
    appends a new one. *)
Definition py_setitem (v : json) (k : string) (x : json) : string + json :=
  match v with
  | JObj kvs =>
      if existsb (fun kv => String.eqb (fst kv) k) kvs
      then inr (JObj (map (replace_key k x) kvs))
      else inr (JObj (kvs ++ [(k, x)]))
  | JArr _ => inl "list indices must be integers or slices, not str"
  | _ => inl ("'" ++ py_type_name v ++ "' object does not support item assignment")
  end.

(** [v.insert(0, x)]. *)
Definition py_insert0 (v x : json) : string + json :=
  match v with
  | JArr l => inr (JArr (x :: l))
  | _ => inl ("'" ++ py_type_name v ++ "' object has no attribute 'insert'")
  end.

(** [v.get(k, default)]. *)
Definition py_get (v : json) (k : string) (default : json) : string + json :=
  match v with
  | JObj _ => match py_getitem v k with inr x => inr x | inl _ => inr default end
  | _ => inl ("'" ++ py_type_name v ++ "' object has no attribute 'get'")
  end.

(** [msg["role"] == "system"]. *)
Definition role_is_system (msg : json) : string + bool :=
  match py_getitem msg "role" with
  | inl e => inl e
  | inr (JStr s) => inr (String.eqb s "system")
  | inr _ => inr false
  end.

(** [any(msg["role"] == "system" for msg in ...)]: it stops at the first
    [True], and an exception of an earlier item escapes. *)
Fixpoint py_any_system (msgs : list json) : string + bool :=
  match msgs with
  | [] => inr false
  | m :: r =>
      match role_is_system m with
      | inl e => inl e
      | inr true => inr true
      | inr false => py_any_system r
      end
  end.

Definition system_msg (prompt : string) : json :=
  JObj [("role", JStr "system"); ("content", JStr prompt)].

(** [if "messages" in data:
        if not any(msg["role"] == "system" for msg in data["messages"]):
            data["messages"].insert(0, {"role": "system", "content": prompt})]
    The list is mutated inside [data]; [inl] is the message of the exception. *)
Definition add_system_message (prompt : string) (data : json) : string + json :=
  match py_contains "messages" data with
  | inl e => inl e
  | inr false => inr data
  | inr true =>
      match py_getitem data "messages" with
      | inl e => inl e
      | inr ms =>
          match py_iter ms with
          | inl e => inl e
          | inr items =>
              match py_any_system items with
              | inl e => inl e
              | inr true => inr data
              | inr false =>
                  match py_insert0 ms (system_msg prompt) with
                  | inl e => inl e
                  | inr ms' => py_setitem data "messages" ms'
                  end
              end
          end
      end
  end.

(** What a forwarding endpoint does: an upstream [POST] to [path] with the
    JSON body [json=data], or a yield to the client. *)
Inductive fwd_event := FUpstream (path : string) (body : json) | FYield (o : Out).

(** The [StreamingResponse]: its [media_type] and what its generator does. *)
Record response := mkResponse { r_media_type : string; r_body : list fwd_event }.


(** [chat] of [src/custom_llm_server.py]: the body is forwarded as it is
    after the system-message step, and every chunk is relayed. *)
Definition root_chat (data : json) (p : Pass) : response :=
  mkResponse "application/x-ndjson"
    (match add_system_message plain_system_prompt data with
     | inl e => [FYield (OError e)]
     | inr d => FUpstream "/api/chat" d :: map FYield (relay_stream (p_chunks p) (p_end p))
     end).

(** [chat] of [open_webui/custom_llm_server.py]: [data.get("stream", True)]
    runs before the response is built ([inl]: the endpoint raises); with a
    falsy flag the chunks are joined into [full_response] and yielded once. *)
Definition webui_chat (data : json) (p : Pass) : string + response :=
  match py_get data "stream" (JBool true) with
  | inl e => inl e
  | inr is_streaming =>
      inr (mkResponse
             (if truthy is_streaming then "application/x-ndjson" else "application/json")
             (match add_system_message plain_system_prompt data with
              | inl e => [FYield (OError e)]
              | inr d => FUpstream "/api/chat" d
                           :: map FYield (relay_second (truthy is_streaming) p)
              end))
  end.

Section Generate.

(** [str(v)] of a value that is not a string (the f-string's formatting). *)
Variable str_of : json -> string.

Definition fstring_value (v : json) : string :=
  match v with JStr s => s | _ => str_of v end.

(** [if "prompt" in data:
        data["prompt"] = f"Process this request: {data['prompt']}"] *)
Definition rewrite_prompt (data : json) : string + json :=
  match py_contains "prompt" data with
  | inl e => inl e
  | inr false => inr data
  | inr true =>
      match py_getitem data "prompt" with
      | inl e => inl e
      | inr v => py_setitem data "prompt" (JStr ("Process this request: " ++ fstring_value v))
      end
  end.

(** [generate] of the two servers without tools (the same code in both). *)
Definition plain_generate (data : json) (p : Pass) : response :=
  mkResponse "application/json"
    (match rewrite_prompt data with
     | inl e => [FYield (OError e)]
     | inr d => FUpstream "/api/generate" d :: map FYield (relay_stream (p_chunks p) (p_end p))
     end).

(** The [metadata] block of the with-tools server's [generate]: it reads
    [data["metadata"]["task"]] and only prints. *)
Definition inspect_metadata (data : json) : string + unit :=
  match py_contains "metadata" data with
  | inl e => inl e
  | inr false => inr tt
  | inr true =>
      match py_getitem data "metadata" with
      | inl e => inl e
      | inr md =>
          match py_contains "task" md with
          | inl e => inl e
          | inr false => inr tt
          | inr true => match py_getitem md "task" with inl e => inl e | inr _ => inr tt end
          end
      end
  end.

(** [generate] of [custom_llm_server_with_tools.py]. *)
Definition tools_generate (data : json) (p : Pass) : response :=
  mkResponse "application/json"
    (match rewrite_prompt data with
     | inl e => [FYield (OError e)]
     | inr d =>
         match inspect_metadata d with
         | inl e => [FYield (OError e)]
         | inr _ => FUpstream "/api/generate" d
                      :: map FYield (relay_stream (p_chunks p) (p_end p))
         end
     end).

End Generate.

(* ================================================================== *)
(** ** The callers of [nba_tools] in the test scripts *)

(** [from open_webui.nba_tools import (...)] of [test_nba_tools.py]. *)
Definition test_nba_tools_imports : list string :=
  ["get_player_info"; "get_team_info"; "get_game_info"; "set_debug_mode"; "set_use_mock_data"].

(** [from nba_tools import (...)] of [unit_test_llm_server.py]. *)
Definition unit_test_imports : list string :=
  ["get_player_info"; "get_team_info"; "get_team_standings"; "get_league_leaders";
   "get_game_odds"; "get_player_injuries"; "get_head_to_head_stats";
   "set_use_mock_data"; "set_debug_mode";
   "MOCK_PLAYERS"; "MOCK_TEAMS"; "MOCK_STANDINGS"; "MOCK_LEADERS"; "MOCK_GAMES";
   "MOCK_ODDS"; "MOCK_INJURIES"].

(* ================================================================== *)
(** ** Concrete inputs for the forwarding endpoints and [nba_tools] *)

Module Ex2.

Definition user_msg : json := JObj [("role", JStr "user"); ("content", JStr "hi")].
Definition no_role_msg : json := JObj [("content", JStr "hi")].

Definition chat_body : json := JObj [("model", JStr "llama3.2:1b"); ("messages", JArr [user_msg])].

(** [chat_body] after the system-message step. *)
Definition chat_body_sent : json :=
  Eval vm_compute in
    match add_system_message plain_system_prompt chat_body with inr d => d | inl _ => JNull end.

Definition no_role_body : json := JObj [("messages", JArr [no_role_msg])].
Definition string_messages_body : json := JObj [("messages", JStr "hello")].
Definition title_generate_body : json :=
  JObj [("prompt", JStr "hi"); ("metadata", JObj [("task", JStr "title_generation")])].
Definition null_metadata_body : json := JObj [("prompt", JStr "hi"); ("metadata", JNull)].

Definition str_of (_ : json) : string := "?".

Definition pass_ab : Pass := mkPass [jq "{'a': 1}"; jq "{'b': 2}"] Completes.

(** A provider that answers with the mock tables. *)
Definition mock_api : Provider :=
  mkProvider (fun _ => inr MOCK_PLAYERS) (inr MOCK_TEAMS) (fun _ => inr MOCK_GAMES).

(** [MOCK_PLAYERS[0]]. *)
Definition curry : Player :=
  mkPlayer 1 "Stephen" "Curry" "G" 6 3 185 (1%Z, "Warriors", "Golden State Warriors").

Definition req_no_messages : ChatReq := mkChatReq None None None None.

Definition number_chunk : string := "5".
Definition tool_pass : Pass :=
  mkPass [Ex.answer_chunk; Ex.tool_chunk; Ex.final_chunk]
    (Raises "peer closed connection without sending complete message body").

Definition decoded_or_null (c : string) : json :=
  match json_loads c with DecOk j => j | _ => JNull end.

Definition tool_calls_or_null (j : json) : json :=
  match tool_calls_of j with inr (Some t) => t | _ => JNull end.

End Ex2.

(* ================================================================== *)
(** * Properties *)

Module DecoderExamples.
Example json_loads_object :
  json_loads (jq "{'message': {'role': 'assistant', 'content': 'Hi'}, 'done': true}")
  = DecOk (JObj [("message", JObj [("role", JStr "assistant"); ("content", JStr "Hi")]);
                 ("done", JBool true)]).
Proof. vm_compute. reflexivity. Qed.

Example json_loads_fragment :
  json_loads (jq "{'message': {'tool_calls': [{'func") = DecJSONError.
Proof. vm_compute. reflexivity. Qed.

Example json_loads_two_objects :
  json_loads (jq "{'a': 1}{'b': 2.5}") = DecJSONError.
Proof. vm_compute. reflexivity. Qed.

End DecoderExamples.

Section Proofs.

Local Open Scope list_scope.

Variable loads : string -> decoded.
Variable use_tools : json -> string + string.
Variable tools : list json.

(** A chunk the loop relays: [json.loads] raises [JSONDecodeError] on it, or
    decodes it to a value without [message.tool_calls]. *)
Definition no_tool_chunk (c : string) : Prop :=
  loads c = DecJSONError \/ exists j, loads c = DecOk j /\ tool_calls_of j = inr None.

Lemma relay_cons_no_tool c rest fin streaming :
  no_tool_chunk c ->
  scan loads streaming (c :: rest) fin = relay_cons streaming c (scan loads streaming rest fin).
Proof.
  intros [H | (j & H & Hj)]; simpl; rewrite H; [reflexivity | now rewrite Hj].
Qed.

Lemma scan_no_tool streaming cs fin :
  Forall no_tool_chunk cs ->
  scan loads streaming cs fin =
  match fin with
  | Completes => if streaming then ScanEnd (map OChunk cs) [] None else ScanEnd [] cs None
  | Raises e => ScanRaise (if streaming then map OChunk cs else []) e
  end.
Proof.
  induction 1 as [| c cs Hc Hcs IH].
  - destruct fin, streaming; reflexivity.
  - rewrite relay_cons_no_tool by exact Hc. rewrite IH.
    destruct fin, streaming; reflexivity.
Qed.

Lemma scan_prefix_no_tool streaming pre rest fin :
  Forall no_tool_chunk pre ->
  scan loads streaming (pre ++ rest) fin =
  fold_right (relay_cons streaming) (scan loads streaming rest fin) pre.
Proof.
  induction 1 as [| c cs Hc Hcs IH]; [reflexivity |].
  simpl app. rewrite relay_cons_no_tool by exact Hc. now rewrite IH.
Qed.

Lemma loop_prepend_app tr1 tr2 l :
  loop_prepend tr1 (loop_prepend tr2 l) = loop_prepend (tr1 ++ tr2) l.
Proof. destruct l; simpl; now rewrite app_assoc. Qed.

Lemma loop_prepend_nil l : loop_prepend [] l = l.
Proof. now destruct l. Qed.

(** A pass of only relayed chunks that completes, in streaming mode: the
    iteration yields each chunk once, in order, and leaves the loop state
    as it was, apart from the call counter. *)
Lemma attempt_no_tool_stream stream_flag req p :
  truthy stream_flag = true -> p_end p = Completes -> Forall no_tool_chunk (p_chunks p) ->
  attempt loads use_tools stream_flag req p
  = StepNoTool (EUpstream req :: map (fun c => EYield (OChunk c)) (p_chunks p)).
Proof.
  intros Hs He Hf. unfold attempt. rewrite Hs, He, (scan_no_tool true _ Completes Hf).
  simpl. now rewrite map_map, app_nil_r.
Qed.

(** The next iteration starts with the same upstream request. *)
Lemma retry_loop_first_event fuel backend call rc stream_flag req :
  (rc < max_retries)%nat ->
  exists tr, retry_loop loads use_tools (S fuel) backend call rc stream_flag req
             = loop_prepend [EUpstream req] tr.
Proof.
  intros Hrc. simpl.
  replace (rc <? max_retries)%nat with true by (symmetry; apply Nat.ltb_lt; exact Hrc).
  unfold attempt.
  destruct (scan loads (truthy stream_flag) (p_chunks (backend call)) (p_end (backend call)))
    as [ys e | ys acc [t |]].
  - destruct (S rc <? max_retries)%nat.
    + eexists. rewrite loop_prepend_app. reflexivity.
    + exists (LoopStop (map EYield ys ++ [EYield (OError (exhausted_message e))])).
      reflexivity.
  - destruct (truthy t); [destruct (use_tools t) as [e | r] |].
    + destruct (S rc <? max_retries)%nat.
      * eexists. rewrite loop_prepend_app. reflexivity.
      * eexists (LoopStop _). simpl. rewrite <- app_assoc. reflexivity.
    + eexists (LoopSuccess _ r (S call)). reflexivity.
    + eexists. rewrite loop_prepend_app. reflexivity.
  - eexists. rewrite loop_prepend_app. reflexivity.
Qed.

(** One iteration per unit of fuel, each a full pass relayed chunk by
    chunk, as long as every pass is a direct answer: the retry counter
    never moves, so the loop is never left. *)
Lemma retry_loop_direct_answers fuel backend call rc stream_flag req :
  (rc < max_retries)%nat ->
  truthy stream_flag = true ->
  (forall n, p_end (backend n) = Completes /\ Forall no_tool_chunk (p_chunks (backend n))) ->
  retry_loop loads use_tools fuel backend call rc stream_flag req
  = LoopFuel (concat (map (fun n => EUpstream req
                                    :: map (fun c => EYield (OChunk c)) (p_chunks (backend n)))
                          (seq call fuel))).
Proof.
  intros Hrc Hs Hb. revert call. induction fuel as [| f IH]; intros call; [reflexivity |].
  destruct (Hb call) as [He Hf]. simpl.
  replace (rc <? max_retries)%nat with true by (symmetry; apply Nat.ltb_lt; exact Hrc).
  rewrite attempt_no_tool_stream by assumption. rewrite IH. reflexivity.
Qed.

(** [C1] (code bug).  On the tool-calling path with a streamed response, a
    backend that answers directly on every pass (each pass completes
    without a tool-call field and without an error) never ends the retry
    loop: after any number of iterations, also past [max_retries = 10],
    the loop has sent the same first request once per iteration, relayed
    each answer in full right after its call, and not finished. *)
Theorem direct_answers_reissued_without_bound fuel backend data :
  function_call (cr_metadata data) = true ->
  truthy (is_streaming data) = true ->
  (forall n, p_end (backend n) = Completes /\ Forall no_tool_chunk (p_chunks (backend n))) ->
  generate_response loads use_tools tools fuel backend data
  = mkOutcome (concat (map (fun n => EUpstream (first_request tools data)
                                     :: map (fun c => EYield (OChunk c)) (p_chunks (backend n)))
                           (seq 0 fuel))) false.
Proof.
  intros Hf Hs Hb. unfold generate_response. rewrite Hf.
  rewrite (retry_loop_direct_answers fuel backend 0 0 _ _ ltac:(unfold max_retries; lia) Hs Hb).
  reflexivity.
Qed.

(** [C3] (amended).  A chunk on which [json.loads] raises
    [JSONDecodeError] is not held back for a later parse: it is relayed at
    its position like any other relayed chunk (yielded at once in streaming
    mode, appended to [accumulated_response] otherwise), and the chunks after
    it are decoded on their own, never joined to it. *)
Theorem undecodable_chunk_relayed_not_reparsed streaming pre c rest fin :
  Forall no_tool_chunk pre ->
  loads c = DecJSONError ->
  scan loads streaming (pre ++ c :: rest) fin =
  fold_right (relay_cons streaming)
    (relay_cons streaming c (scan loads streaming rest fin)) pre.
Proof.
  intros Hpre Hc. rewrite scan_prefix_no_tool by exact Hpre.
  simpl. now rewrite Hc.
Qed.

Definition step_trace (s : step_res) : list event :=
  match s with StepFail tr _ | StepNoTool tr | StepTool tr _ => tr end.

Definition loop_trace (l : loop_res) : list event :=
  match l with LoopSuccess tr _ _ | LoopStop tr | LoopFuel tr => tr end.

Lemma use_tools_calls_app tr1 tr2 :
  use_tools_calls (tr1 ++ tr2) = use_tools_calls tr1 ++ use_tools_calls tr2.
Proof. unfold use_tools_calls. now rewrite flat_map_app. Qed.

Lemma upstream_calls_app tr1 tr2 :
  upstream_calls (tr1 ++ tr2) = upstream_calls tr1 ++ upstream_calls tr2.
Proof. unfold upstream_calls. now rewrite flat_map_app. Qed.

Lemma yields_of_app tr1 tr2 : yields_of (tr1 ++ tr2) = yields_of tr1 ++ yields_of tr2.
Proof. unfold yields_of. now rewrite flat_map_app. Qed.

Lemma use_tools_calls_yields ys : use_tools_calls (map EYield ys) = [].
Proof. induction ys; simpl; auto. Qed.

Lemma upstream_calls_yields ys : upstream_calls (map EYield ys) = [].
Proof. induction ys; simpl; auto. Qed.

Lemma yields_of_yields ys : yields_of (map EYield ys) = ys.
Proof. induction ys; simpl; f_equal; auto. Qed.

Lemma successful_use_tools_app tr1 tr2 :
  successful_use_tools (tr1 ++ tr2) = successful_use_tools tr1 + successful_use_tools tr2.
Proof.
  unfold successful_use_tools. now rewrite use_tools_calls_app, filter_app, length_app.
Qed.

Lemma successful_use_tools_head req ys extra :
  successful_use_tools (EUpstream req :: map EYield ys ++ extra) = successful_use_tools extra.
Proof.
  change (EUpstream req :: map EYield ys ++ extra) with ([EUpstream req] ++ map EYield ys ++ extra).
  rewrite !successful_use_tools_app. unfold successful_use_tools at 1 2.
  now rewrite use_tools_calls_yields.
Qed.

Lemma attempt_shape sf req p :
  match attempt loads use_tools sf req p with
  | StepTool tr r => exists tr0 t, tr = tr0 ++ [EUseTools t (inr r)] /\ successful_use_tools tr0 = 0
  | StepNoTool tr => successful_use_tools tr = 0
  | StepFail tr _ => successful_use_tools tr = 0
  end.
Proof.
  unfold attempt.
  destruct (scan loads (truthy sf) (p_chunks p) (p_end p)) as [ys e | ys acc [t |]].
  - rewrite <- (app_nil_r (map EYield ys)). apply successful_use_tools_head.
  - assert (H0 : successful_use_tools
                   (EUpstream req :: map EYield ys
                    ++ (if truthy sf then [] else [EYield (OBytes acc)])) = 0).
    { rewrite successful_use_tools_head. now destruct (truthy sf). }
    destruct (truthy t); [destruct (use_tools t) as [e | r] |].
    + rewrite successful_use_tools_app, H0. reflexivity.
    + eexists _, t. split; [reflexivity | exact H0].
    + exact H0.
  - rewrite successful_use_tools_head. now destruct (truthy sf).
Qed.

Lemma retry_loop_success fuel backend call rc sf req tr r n :
  retry_loop loads use_tools fuel backend call rc sf req = LoopSuccess tr r n ->
  exists tr0 t, tr = tr0 ++ [EUseTools t (inr r)] /\ successful_use_tools tr0 = 0.
Proof.
  revert call rc tr. induction fuel as [| f IH]; intros call rc tr H; [discriminate |].
  simpl in H. destruct (rc <? max_retries)%nat; [| discriminate].
  pose proof (attempt_shape sf req (backend call)) as Hs.
  destruct (attempt loads use_tools sf req (backend call)) as [tr1 e | tr1 | tr1 r1].
  - destruct (S rc <? max_retries)%nat; [| discriminate].
    destruct (retry_loop loads use_tools f backend (S call) (S rc) sf req) eqn:Hl;
      try discriminate.
    simpl in H. injection H as <- <- <-.
    destruct (IH _ _ _ Hl) as (tr2 & t & -> & H0).
    exists (tr1 ++ tr2), t. split; [now rewrite app_assoc |].
    now rewrite successful_use_tools_app, Hs, H0.
  - destruct (retry_loop loads use_tools f backend (S call) rc sf req) eqn:Hl;
      try discriminate.
    simpl in H. injection H as <- <- <-.
    destruct (IH _ _ _ Hl) as (tr2 & t & -> & H0).
    exists (tr1 ++ tr2), t. split; [now rewrite app_assoc |].
    now rewrite successful_use_tools_app, Hs, H0.
  - injection H as <- <- <-. exact Hs.
Qed.

(** [C4] (amended).  When the tool-seeking loop ends with a result, the
    last thing it did was the one [use_tools] call that returned, every
    earlier [use_tools] call (on earlier attempts) having raised; then a
    single further upstream call follows, whose conversation is the tool
    path's messages plus one [tool] message with that result and whose body
    has no tools list, and its output is relayed. *)
Theorem tool_result_then_second_call fuel backend data tr r call :
  function_call (cr_metadata data) = true ->
  retry_loop loads use_tools fuel backend 0 0 (is_streaming data) (first_request tools data)
  = LoopSuccess tr r call ->
  exists tr0 t,
    tr = tr0 ++ [EUseTools t (inr r)] /\
    successful_use_tools tr0 = 0 /\
    o_trace (generate_response loads use_tools tools fuel backend data)
    = tr ++ EUpstream (second_request data r)
         :: map EYield (relay_second (truthy (is_streaming data)) (backend call)) /\
    up_messages (second_request data r) = tool_path_messages data ++ [mkMsg "tool" r] /\
    up_tools (second_request data r) = None.
Proof.
  intros Hf Hl. destruct (retry_loop_success _ _ _ _ _ _ _ _ _ Hl) as (tr0 & t & Htr & H0).
  exists tr0, t. repeat split; auto.
  unfold generate_response. rewrite Hf, Hl. reflexivity.
Qed.

Lemma retry_loop_all_fail k : forall fuel backend call rc sf req trs es,
  (rc + S k = max_retries)%nat ->
  (S k <= fuel)%nat ->
  (forall i, (i <= k)%nat ->
     attempt loads use_tools sf req (backend (call + i)) = StepFail (trs i) (es i)) ->
  retry_loop loads use_tools fuel backend call rc sf req =
  LoopStop (concat (map trs (seq 0 (S k))) ++ [EYield (OError (exhausted_message (es k)))]).
Proof.
  induction k as [| k IH]; intros fuel backend call rc sf req trs es Hrc Hfuel Hat;
    (destruct fuel as [| f]; [lia |]); simpl retry_loop.
  - replace (rc <? max_retries)%nat with true
      by (symmetry; apply Nat.ltb_lt; unfold max_retries in *; lia).
    specialize (Hat 0 (le_n 0)). rewrite Nat.add_0_r in Hat. rewrite Hat.
    replace (S rc <? max_retries)%nat with false
      by (symmetry; apply Nat.ltb_ge; unfold max_retries in *; lia).
    simpl. now rewrite app_nil_r.
  - replace (rc <? max_retries)%nat with true
      by (symmetry; apply Nat.ltb_lt; unfold max_retries in *; lia).
    pose proof (Hat 0 (Nat.le_0_l _)) as H0. rewrite Nat.add_0_r in H0. rewrite H0.
    replace (S rc <? max_retries)%nat with true
      by (symmetry; apply Nat.ltb_lt; unfold max_retries in *; lia).
    rewrite (IH f backend (S call) (S rc) sf req (fun i => trs (S i)) (fun i => es (S i)));
      [| lia | lia | intros i Hi; replace (S call + i)%nat with (call + S i)%nat by lia;
         apply Hat; lia].
    simpl loop_prepend. f_equal.
    replace (seq 0 (S (S k))) with (0 :: map S (seq 0 (S k)))
      by (rewrite seq_shift; reflexivity).
    rewrite map_cons, map_map, concat_cons. now rewrite app_assoc.
Qed.

Lemma scan_yields_no_error streaming cs fin :
  match scan loads streaming cs fin with
  | ScanRaise ys _ | ScanEnd ys _ _ => filter is_error_out ys = []
  end.
Proof.
  induction cs as [| c cs IH]; simpl.
  - now destruct fin.
  - assert (Hr : match relay_cons streaming c (scan loads streaming cs fin) with
                 | ScanRaise ys _ | ScanEnd ys _ _ => filter is_error_out ys = []
                 end).
    { destruct (scan loads streaming cs fin); simpl;
        destruct streaming; simpl; exact IH. }
    destruct (loads c) as [j | |]; [| exact Hr | reflexivity].
    destruct (tool_calls_of j) as [e | [t |]]; [reflexivity | reflexivity | exact Hr].
Qed.

Lemma attempt_yields_no_error sf req p :
  filter is_error_out (yields_of (step_trace (attempt loads use_tools sf req p))) = [].
Proof.
  unfold attempt. pose proof (scan_yields_no_error (truthy sf) (p_chunks p) (p_end p)) as Hs.
  destruct (scan loads (truthy sf) (p_chunks p) (p_end p)) as [ys e | ys acc tc].
  - simpl. now rewrite yields_of_yields.
  - assert (H : filter is_error_out
                  (yields_of (EUpstream req :: map EYield ys
                              ++ (if truthy sf then [] else [EYield (OBytes acc)]))) = []).
    { simpl. rewrite yields_of_app, yields_of_yields, filter_app, Hs.
      now destruct (truthy sf). }
    destruct tc as [t |]; [| exact H].
    destruct (truthy t); [| exact H].
    destruct (use_tools t); cbn [step_trace];
      rewrite yields_of_app, filter_app, H; reflexivity.
Qed.

(** [C5] (amended).  When all ten attempts of the tool-seeking loop raise,
    the request's output is, in order, what each failed attempt produced
    before raising (its upstream call and the chunks it had already relayed),
    then exactly one JSON object
    [{"error": "Failed to execute tool call after 10 attempts: ..."}] carrying
    the last exception, and the generator stops there. *)
Theorem all_attempts_fail_single_error fuel backend data trs es :
  function_call (cr_metadata data) = true ->
  (max_retries <= fuel)%nat ->
  (forall i, (i < max_retries)%nat ->
     attempt loads use_tools (is_streaming data) (first_request tools data) (backend i)
     = StepFail (trs i) (es i)) ->
  generate_response loads use_tools tools fuel backend data
  = mkOutcome (concat (map trs (seq 0 max_retries))
               ++ [EYield (OError (exhausted_message (es 9)))]) true
  /\ length (filter is_error_out
               (yields_of (o_trace (generate_response loads use_tools tools fuel backend data))))
     = 1.
Proof.
  intros Hf Hfuel Hat.
  assert (Hg : generate_response loads use_tools tools fuel backend data
               = mkOutcome (concat (map trs (seq 0 max_retries))
                            ++ [EYield (OError (exhausted_message (es 9)))]) true).
  { unfold generate_response. rewrite Hf.
    rewrite (retry_loop_all_fail 9 fuel backend 0 0 _ _ trs es); try reflexivity;
      [exact Hfuel | intros i Hi; apply Hat; unfold max_retries; lia]. }
  split; [exact Hg |]. rewrite Hg. cbn [o_trace].
  rewrite yields_of_app, filter_app.
  assert (Hc : forall n, filter is_error_out (yields_of (concat (map trs (seq 0 n)))) = []
                         \/ (max_retries < n)%nat).
  { induction n as [| n IHn]; [left; reflexivity |].
    destruct (Nat.lt_ge_cases n max_retries) as [Hlt | Hge]; [| right; lia].
    left. rewrite seq_S, map_app, concat_app, yields_of_app, filter_app.
    destruct IHn as [-> | Hn]; [| lia].
    rewrite app_nil_l. simpl (0 + n)%nat. cbn [map concat]. rewrite app_nil_r.
    replace (trs n) with (step_trace (attempt loads use_tools (is_streaming data)
                                        (first_request tools data) (backend n)))
      by (rewrite (Hat n Hlt); reflexivity).
    apply attempt_yields_no_error. }
  destruct (Hc max_retries) as [-> | Hn]; [reflexivity | lia].
Qed.
Lemma scan_buffered_shape cs fin :
  match scan loads false cs fin with
  | ScanRaise ys _ => ys = []
  | ScanEnd ys acc _ => ys = [] /\ exists rest, cs = acc ++ rest
  end.
Proof.
  induction cs as [| c cs IH]; simpl.
  - destruct fin; [split; [reflexivity | now exists []] | reflexivity].
  - assert (Hr : match relay_cons false c (scan loads false cs fin) with
                 | ScanRaise ys _ => ys = []
                 | ScanEnd ys acc _ => ys = [] /\ exists rest, c :: cs = acc ++ rest
                 end).
    { destruct (scan loads false cs fin) as [ys e | ys acc tc]; simpl; [exact IH |].
      destruct IH as [-> [rest ->]]. split; [reflexivity | now exists rest]. }
    destruct (loads c) as [j | |]; [| exact Hr | reflexivity].
    destruct (tool_calls_of j) as [e | [t |]];
      [reflexivity | split; [reflexivity | now exists (c :: cs)] | exact Hr].
Qed.









Lemma attempt_upstream sf req p :
  upstream_calls (step_trace (attempt loads use_tools sf req p)) = [req].
Proof.
  unfold attempt.
  destruct (scan loads (truthy sf) (p_chunks p) (p_end p)) as [ys e | ys acc tc].
  - simpl. now rewrite upstream_calls_yields.
  - assert (H : upstream_calls (EUpstream req :: map EYield ys
                  ++ (if truthy sf then [] else [EYield (OBytes acc)])) = [req]).
    { simpl. rewrite upstream_calls_app, upstream_calls_yields.
      now destruct (truthy sf). }
    destruct tc as [t |]; [| exact H]. destruct (truthy t); [| exact H].
    destruct (use_tools t); cbn [step_trace]; rewrite upstream_calls_app, H; reflexivity.
Qed.

Lemma retry_loop_upstream fuel backend call rc sf req r :
  In r (upstream_calls (loop_trace (retry_loop loads use_tools fuel backend call rc sf req))) ->
  r = req.
Proof.
  revert call rc. induction fuel as [| f IH]; intros call rc; simpl; [tauto |].
  destruct (rc <? max_retries)%nat; [| simpl; tauto].
  pose proof (attempt_upstream sf req (backend call)) as Ha.
  destruct (attempt loads use_tools sf req (backend call)) as [tr e | tr | tr r1];
    cbn [step_trace] in Ha.
  - destruct (S rc <? max_retries)%nat.
    + intros Hin. assert (Hl : forall l, loop_trace (loop_prepend tr l) = tr ++ loop_trace l)
        by (intros []; reflexivity).
      rewrite Hl, upstream_calls_app, Ha in Hin. destruct Hin as [<- | Hin]; [reflexivity |].
      exact (IH _ _ Hin).
    + simpl. rewrite upstream_calls_app, Ha. simpl. intros [<- | []]; reflexivity.
  - intros Hin. assert (Hl : forall l, loop_trace (loop_prepend tr l) = tr ++ loop_trace l)
      by (intros []; reflexivity).
    rewrite Hl, upstream_calls_app, Ha in Hin. destruct Hin as [<- | Hin]; [reflexivity |].
    exact (IH _ _ Hin).
  - simpl. rewrite Ha. intros [<- | []]; reflexivity.
Qed.

Lemma count_system_app m1 m2 : count_system (m1 ++ m2) = count_system m1 + count_system m2.
Proof. unfold count_system. now rewrite filter_app, length_app. Qed.

Lemma inject_missing prompt ms :
  existsb is_system ms = false ->
  count_system (inject_system prompt ms) = 1 /\
  nth_error (inject_system prompt ms) 0 = Some (mkMsg "system" prompt).
Proof.
  intros H. unfold inject_system. rewrite H. split; [| reflexivity].
  unfold count_system. simpl.
  assert (Hf : filter is_system ms = []).
  { induction ms as [| m ms IHm]; [reflexivity |].
    simpl in H |- *. apply orb_false_iff in H as [H1 H2]. rewrite H1. exact (IHm H2). }
  now rewrite Hf.
Qed.
Lemma upstream_calls_cons_up x tr : upstream_calls (EUpstream x :: tr) = x :: upstream_calls tr.
Proof. reflexivity. Qed.

Lemma use_tools_calls_cons_up x tr : use_tools_calls (EUpstream x :: tr) = use_tools_calls tr.
Proof. reflexivity. Qed.

(** [C7].  A conversation without a [system] message gets exactly one, at
    index 0 (for either server's prompt), and every upstream request the
    with-tools server issues for it carries exactly one system message, at
    index 0; a conversation that already has one is left as it is by the
    injection step. *)
Theorem system_message_injected_once ms :
  (existsb is_system ms = false ->
     (forall prompt,
        count_system (inject_system prompt ms) = 1 /\
        nth_error (inject_system prompt ms) 0 = Some (mkMsg "system" prompt)) /\
     (forall fuel backend data r,
        cr_messages data = Some ms ->
        In r (upstream_calls (o_trace (generate_response loads use_tools tools fuel backend data))) ->
        count_system (up_messages r) = 1 /\
        nth_error (up_messages r) 0 = Some (mkMsg "system" tools_system_prompt))) /\
  (existsb is_system ms = true -> forall prompt, inject_system prompt ms = ms).
Proof.
  split; [| intros H prompt; unfold inject_system; now rewrite H].
  intros Hms. split; [intros prompt; now apply inject_missing |].
  intros fuel backend data r Hd Hin.
  destruct (inject_missing tools_system_prompt ms Hms) as [Hc H0].
  assert (Hfirst : r = first_request tools data ->
                   count_system (up_messages r) = 1 /\
                   nth_error (up_messages r) 0 = Some (mkMsg "system" tools_system_prompt)).
  { intros ->. unfold first_request, tool_path_messages. simpl. rewrite Hd. now split. }
  unfold generate_response in Hin.
  destruct (function_call (cr_metadata data)).
  - destruct (retry_loop loads use_tools fuel backend 0 0 (is_streaming data)
                (first_request tools data)) as [tr r1 call | tr | tr] eqn:Hl;
      cbn [o_trace] in Hin.
    + rewrite upstream_calls_app, upstream_calls_cons_up, upstream_calls_yields in Hin.
      apply in_app_or in Hin as [Hin | [<- | []]].
      * apply Hfirst. eapply retry_loop_upstream. rewrite Hl. exact Hin.
      * unfold second_request, tool_path_messages. cbn [up_messages]. rewrite Hd.
        rewrite count_system_app, Hc. split; [reflexivity |].
        rewrite nth_error_app1; [exact H0 |].
        unfold inject_system. rewrite Hms. simpl. lia.
    + apply Hfirst. eapply retry_loop_upstream. rewrite Hl. exact Hin.
    + apply Hfirst. eapply retry_loop_upstream. rewrite Hl. exact Hin.
  - rewrite Hd in Hin. cbn [o_trace] in Hin.
    rewrite upstream_calls_cons_up, upstream_calls_yields in Hin.
    destruct Hin as [<- | []]. simpl. now split.
Qed.

(** [C8].  A request whose [metadata.task] is [tags_generation],
    [title_generation] or [autocomplete_generation] (and which carries its
    [messages], as the interface requires) is forwarded once, to the fixed
    model [llama3.2:1b], with no tools list, and the upstream output is
    relayed; no tool is ever called, whatever the conversation holds. *)
Theorem housekeeping_task_bypass fuel backend data t ms :
  In t [JStr "tags_generation"; JStr "title_generation"; JStr "autocomplete_generation"] ->
  cr_metadata data = Some (Some t) ->
  cr_messages data = Some ms ->
  let out := generate_response loads use_tools tools fuel backend data in
  let fwd := mkUpReq "llama3.2:1b" (inject_system tools_system_prompt ms) None
               (is_streaming data) in
  o_trace out = EUpstream fwd
                :: map EYield (relay_stream (p_chunks (backend 0)) (p_end (backend 0))) /\
  upstream_calls (o_trace out) = [fwd] /\
  use_tools_calls (o_trace out) = [] /\
  o_finished out = true.
Proof.
  intros Ht Hmd Hm out fwd.
  assert (Hf : function_call (cr_metadata data) = false).
  { rewrite Hmd. simpl in Ht.
    destruct Ht as [<- | [<- | [<- | []]]]; reflexivity. }
  assert (Ho : out = mkOutcome (EUpstream fwd
                 :: map EYield (relay_stream (p_chunks (backend 0)) (p_end (backend 0)))) true).
  { unfold out, generate_response. rewrite Hf, Hm. reflexivity. }
  rewrite Ho. cbn [o_trace o_finished].
  rewrite upstream_calls_cons_up, upstream_calls_yields, use_tools_calls_cons_up,
    use_tools_calls_yields.
  repeat split; reflexivity.
Qed.
End Proofs.

(* ------------------------------------------------------------------ *)
(** ** Module initialisation and the capability functions *)

(** [C2] (the import fails).  Five of the seven names the with-tools server
    imports from [nba_tools] are not defined there (their [def]s are
    commented out), so [from nba_tools import (...)] raises [ImportError] at
    the first of them and neither [tools] nor [functions] is ever built. *)
Theorem with_tools_import_fails :
  init_with_tools_server
  = inl "cannot import name 'get_player_injuries' from 'nba_tools'" /\
  filter (fun n => negb (existsb (String.eqb n) nba_tools_names)) with_tools_imports
  = ["get_player_injuries"; "get_game_odds"; "get_head_to_head_stats";
     "get_league_leaders"; "get_team_standings"].
Proof. split; vm_compute; reflexivity. Qed.

Lemma warriors_neq_lakers : warriors <> lakers.
Proof. unfold warriors, lakers. congruence. Qed.

(** [C9].  In mock-data mode [get_team_info]: an empty name gives
    [{"error": "Team name is required"}] whatever the provider; otherwise a
    name matching (lower-cased, as a substring of [name] or [full_name]) two
    different mock teams gives the multiple-teams error, a name matching
    exactly one team gives that team, and a name matching none gives an
    error naming it. *)
Theorem mock_get_team_info api team_name :
  (team_name = "" -> get_team_info true api team_name = PError "Team name is required") /\
  (team_name <> "" ->
     ((exists t1 t2, In t1 MOCK_TEAMS /\ In t2 MOCK_TEAMS /\ t1 <> t2 /\
                     team_matches team_name t1 = true /\ team_matches team_name t2 = true) ->
      get_team_info true api team_name
      = PError "Multiple teams found. Please use full team name.") /\
     (forall t, In t MOCK_TEAMS -> team_matches team_name t = true ->
      (forall t', In t' MOCK_TEAMS -> t' <> t -> team_matches team_name t' = false) ->
      get_team_info true api team_name = PTeam t) /\
     ((forall t, In t MOCK_TEAMS -> team_matches team_name t = false) ->
      get_team_info true api team_name = PError ("No team found with name " ++ team_name))).
Proof.
  split; [intros ->; reflexivity |].
  intros Hne. apply String.eqb_neq in Hne.
  unfold get_team_info, select_team. rewrite Hne. unfold MOCK_TEAMS. cbn [filter].
  pose proof warriors_neq_lakers as Hwl.
  destruct (team_matches team_name warriors) eqn:Hw;
    destruct (team_matches team_name lakers) eqn:Hl; simpl;
    (split; [| split]);
    try (intros (t1 & t2 & H1 & H2 & H12 & Ht1 & Ht2);
         destruct H1 as [<- | [<- | []]]; destruct H2 as [<- | [<- | []]]; congruence);
    try (intros t Ht Hmt Hoth; destruct Ht as [<- | [<- | []]];
         [ specialize (Hoth lakers (or_intror (or_introl eq_refl)))
         | specialize (Hoth warriors (or_introl eq_refl)) ];
         first [reflexivity | congruence | (exfalso; apply Hwl; reflexivity)
               | (assert (lakers <> warriors) by congruence;
                  specialize (Hoth ltac:(assumption)); congruence)
               | (specialize (Hoth ltac:(assumption)); congruence)]);
    try (intros Hnone;
         first [reflexivity
               | (specialize (Hnone warriors (or_introl eq_refl)); congruence)
               | (specialize (Hnone lakers (or_intror (or_introl eq_refl))); congruence)]).
Qed.

(** [C10] (the failing case).  In mock-data mode,
    [get_game_info(2024, "Warriors", "Lakers")] returns the Python list of
    matching games, not a dict, though its docstring and annotation promise
    a [Dict]. *)
Theorem get_game_info_returns_list api :
  get_game_info true api 2024 "Warriors" "Lakers" = PGames MOCK_GAMES /\
  is_dict_like (get_game_info true api 2024 "Warriors" "Lakers") = false.
Proof. split; reflexivity. Qed.

(** The provider path returns a list as well whenever a game matches. *)
Lemma get_game_info_provider_list api season home away gs :
  home <> "" -> away <> "" -> season <> 0%Z ->
  games_list api season = inr gs ->
  (exists g, In g gs /\ py_str_in (py_lower home) (py_lower (t_name (home_team g))) = true
             /\ py_str_in (py_lower away) (py_lower (t_name (visitor_team g))) = true) ->
  is_dict_like (get_game_info false api season home away) = false.
Proof.
  intros Hh Ha Hs Hg (g & Hin & H1 & H2).
  apply String.eqb_neq in Hh, Ha. apply Z.eqb_neq in Hs.
  unfold get_game_info. rewrite Hh, Ha, Hs, Hg.
  match goal with |- context [filter ?f gs] => set (m := filter f gs) end.
  assert (Hm : In g m) by (apply filter_In; split; [exact Hin | now rewrite H1, H2]).
  destruct m as [| g' m']; [destruct Hm |]. reflexivity.
Qed.

(** The other part of the interface holds: empty names are rejected before
    any provider call, and a raising provider is reported as an error dict. *)
Lemma get_player_info_empty_name use_mock api f l :
  (f = "" \/ l = "") ->
  get_player_info use_mock api f l = PError "First name and last name are required".
Proof.
  intros [-> | ->]; unfold get_player_info; simpl; [reflexivity |].
  now rewrite orb_true_r.
Qed.

Lemma get_team_info_provider_error api team_name e :
  team_name <> "" -> teams_list api = inl e ->
  get_team_info false api team_name = PError ("Error fetching team info: " ++ e).
Proof.
  intros Hn He. apply String.eqb_neq in Hn. unfold get_team_info. now rewrite Hn, He.
Qed.

(* ================================================================== *)
(** * Concrete runs: witnesses and counterexamples *)

Module Runs.

Local Open Scope list_scope.

Definition answer_json : json :=
  match json_loads Ex.answer_chunk with DecOk j => j | _ => JNull end.

(** The theorem of [C1] run for twelve iterations, past the ten retries,
    on [Ex.req_stream] against a backend that answers directly. *)
Lemma direct_answers_reissued_without_bound_witness :
  generate_response json_loads Ex.use_tools Ex.tools 12 Ex.backend_direct Ex.req_stream
  = mkOutcome (concat (map (fun n => EUpstream (first_request Ex.tools Ex.req_stream)
                                     :: map (fun c => EYield (OChunk c))
                                          (p_chunks (Ex.backend_direct n)))
                           (seq 0 12))) false.
Proof.
  apply direct_answers_reissued_without_bound; [reflexivity | reflexivity |].
  intros n. split; [reflexivity |].
  constructor; [| constructor]. right. exists answer_json.
  split; vm_compute; reflexivity.
Defined.

Lemma undecodable_chunk_relayed_not_reparsed_witness :
  scan json_loads true ([] ++ Ex.frag1 :: [Ex.frag2]) Completes =
  fold_right (relay_cons true)
    (relay_cons true Ex.frag1 (scan json_loads true [Ex.frag2] Completes)) [].
Proof.
  apply undecodable_chunk_relayed_not_reparsed.
  - constructor.
  - vm_compute. reflexivity.
Defined.

(** [C3] fails: a tool call cut in two by the transport reaches the client
    as two raw fragments and is never detected. *)
Lemma split_tool_call_reaches_client :
  json_loads Ex.frag1 = DecJSONError /\
  json_loads (Ex.frag1 ++ Ex.frag2)%string = json_loads Ex.tool_chunk /\
  yields_of (o_trace (Ex.run 1 Ex.backend_split Ex.req_stream))
  = [OChunk Ex.frag1; OChunk Ex.frag2] /\
  use_tools_calls (o_trace (Ex.run 1 Ex.backend_split Ex.req_stream)) = [].
Proof. vm_compute. repeat split. Qed.

Lemma tool_result_then_second_call_witness :
  exists tr0 t,
    loop_trace Ex.tool_loop = tr0 ++ [EUseTools t (inr "get_team_info result")] /\
    successful_use_tools tr0 = 0 /\
    o_trace (generate_response json_loads Ex.use_tools Ex.tools 5 Ex.backend_tool Ex.req_stream)
    = loop_trace Ex.tool_loop
        ++ EUpstream (second_request Ex.req_stream "get_team_info result")
        :: map EYield (relay_second (truthy (is_streaming Ex.req_stream)) (Ex.backend_tool 1)) /\
    up_messages (second_request Ex.req_stream "get_team_info result")
    = tool_path_messages Ex.req_stream ++ [mkMsg "tool" "get_team_info result"] /\
    up_tools (second_request Ex.req_stream "get_team_info result") = None.
Proof.
  apply tool_result_then_second_call.
  - reflexivity.
  - vm_compute. reflexivity.
Defined.

(** [C4] fails: the detected directive names no registered capability;
    [use_tools] raises on each of the ten attempts, no tool message is ever
    appended and no call without tools is made. *)
Lemma failing_tool_call_never_reaches_second_call :
  length (use_tools_calls (o_trace (Ex.run 20 Ex.backend_bad_tool Ex.req_stream))) = 10 /\
  successful_use_tools (o_trace (Ex.run 20 Ex.backend_bad_tool Ex.req_stream)) = 0 /\
  existsb (fun r => match up_tools r with None => true | Some _ => false end)
    (upstream_calls (o_trace (Ex.run 20 Ex.backend_bad_tool Ex.req_stream))) = false /\
  o_finished (Ex.run 20 Ex.backend_bad_tool Ex.req_stream) = true.
Proof. vm_compute. repeat split. Qed.

Definition drop_message : string := "peer closed connection without sending complete message body".

Lemma all_attempts_fail_single_error_witness :
  generate_response json_loads Ex.use_tools Ex.tools 10 Ex.backend_drop Ex.req_stream
  = mkOutcome (concat (map (fun i => step_trace (attempt json_loads Ex.use_tools
                                      (is_streaming Ex.req_stream)
                                      (first_request Ex.tools Ex.req_stream) (Ex.backend_drop i)))
                          (seq 0 max_retries))
               ++ [EYield (OError (exhausted_message drop_message))]) true
  /\ length (filter is_error_out
       (yields_of (o_trace (generate_response json_loads Ex.use_tools Ex.tools 10
                              Ex.backend_drop Ex.req_stream)))) = 1.
Proof.
  apply (all_attempts_fail_single_error json_loads Ex.use_tools Ex.tools 10 Ex.backend_drop
           Ex.req_stream
           (fun i => step_trace (attempt json_loads Ex.use_tools (is_streaming Ex.req_stream)
                                   (first_request Ex.tools Ex.req_stream) (Ex.backend_drop i)))
           (fun _ => drop_message)).
  - reflexivity.
  - unfold max_retries. lia.
  - intros i _. vm_compute. reflexivity.
Defined.

(** [C5] fails: every attempt relays the chunk it received before the
    connection drops, so the client gets ten chunks from failed passes
    before the error object. *)
Lemma failed_passes_reach_client :
  yields_of (o_trace (Ex.run 30 Ex.backend_drop Ex.req_stream))
  = repeat (OChunk Ex.answer_chunk) 10 ++ [OError (exhausted_message drop_message)].
Proof. vm_compute. reflexivity. Qed.



Lemma system_message_injected_once_witness :
  count_system (inject_system tools_system_prompt [mkMsg "user" "hi"]) = 1 /\
  nth_error (inject_system tools_system_prompt [mkMsg "user" "hi"]) 0
  = Some (mkMsg "system" tools_system_prompt).
Proof.
  apply (proj1 (proj1 (system_message_injected_once json_loads Ex.use_tools Ex.tools
                         [mkMsg "user" "hi"]) ltac:(reflexivity))).
Defined.

Lemma housekeeping_task_bypass_witness :
  upstream_calls (o_trace (generate_response json_loads Ex.use_tools Ex.tools 3
                             Ex.backend_tool Ex.req_title))
  = [mkUpReq "llama3.2:1b"
       (inject_system tools_system_prompt [mkMsg "user" "Who leads the West?"]) None
       (is_streaming Ex.req_title)].
Proof.
  apply (housekeeping_task_bypass json_loads Ex.use_tools Ex.tools 3 Ex.backend_tool
           Ex.req_title (JStr "title_generation") [mkMsg "user" "Who leads the West?"]).
  - simpl. tauto.
  - reflexivity.
  - reflexivity.
Defined.

Lemma mock_get_team_info_witness :
  get_team_info true Ex.offline "a" = PError "Multiple teams found. Please use full team name."
  /\ get_team_info true Ex.offline "Lakers" = PTeam lakers.
Proof.
  split.
  - destruct (proj2 (mock_get_team_info Ex.offline "a") ltac:(discriminate)) as [Hm _].
    apply Hm. exists warriors, lakers.
    split; [left; reflexivity |]. split; [right; left; reflexivity |].
    split; [apply warriors_neq_lakers |].
    split; vm_compute; reflexivity.
  - destruct (proj2 (mock_get_team_info Ex.offline "Lakers") ltac:(discriminate))
      as [_ [Hone _]].
    apply Hone; [right; left; reflexivity | vm_compute; reflexivity |].
    intros t' [<- | [<- | []]] Hne; [vm_compute; reflexivity | congruence].
Defined.

End Runs.

(* ================================================================== *)
(** * The forwarding endpoints *)

Section Forwarding.

Local Open Scope list_scope.

Lemma find_some_existsb {A} (f : A -> bool) l x :
  find f l = Some x -> existsb f l = true.
Proof.
  induction l as [| a l IH]; simpl; [discriminate |].
  destruct (f a); [reflexivity | exact IH].
Qed.

Lemma existsb_rev {A} (f : A -> bool) l : existsb f (rev l) = existsb f l.
Proof.
  induction l as [| a l IH]; simpl; [reflexivity |].
  rewrite existsb_app, IH. simpl. now rewrite orb_false_r, orb_comm.
Qed.

Lemma getitem_obj v k x : py_getitem v k = inr x -> exists kvs, v = JObj kvs.
Proof. destruct v; simpl; try discriminate. eauto. Qed.

Lemma getitem_contains v k x : py_getitem v k = inr x -> py_contains k v = inr true.
Proof.
  destruct v as [| | | | | kvs]; simpl; try discriminate.
  destruct (find _ (rev kvs)) as [[k' x'] |] eqn:Hf; [| discriminate].
  intros _. apply find_some_existsb in Hf. rewrite existsb_rev in Hf. now rewrite Hf.
Qed.

Lemma contains_getitem kvs k :
  py_contains k (JObj kvs) = inr true -> exists x, py_getitem (JObj kvs) k = inr x.
Proof.
  simpl. intros H. injection H as H. rewrite <- existsb_rev in H.
  destruct (find (fun kv => String.eqb (fst kv) k) (rev kvs)) as [[k' x] |] eqn:Hf; [eauto |].
  exfalso. apply existsb_exists in H. destruct H as [kv [Hin Hk]].
  assert (Hn : forall l, find (fun kv => String.eqb (fst kv) k) l = None ->
                         In kv l -> String.eqb (fst kv) k = false).
  { induction l as [| a l IH]; simpl; [tauto |].
    destruct (String.eqb (fst a) k) eqn:Ea; [discriminate |].
    intros Hl [<- | Hi]; [exact Ea | exact (IH Hl Hi)]. }
  rewrite (Hn _ Hf Hin) in Hk. discriminate.
Qed.

Lemma replace_key_hit k x a : String.eqb (fst a) k = true -> replace_key k x a = (k, x).
Proof. unfold replace_key. now intros ->. Qed.

Lemma replace_key_miss k x a : String.eqb (fst a) k = false -> replace_key k x a = a.
Proof. unfold replace_key. now intros ->. Qed.

Lemma find_replace_same k x l :
  existsb (fun kv => String.eqb (fst kv) k) l = true ->
  find (fun kv => String.eqb (fst kv) k) (map (replace_key k x) l) = Some (k, x).
Proof.
  induction l as [| a l IH]; cbn [existsb map find]; [discriminate |].
  destruct (String.eqb (fst a) k) eqn:Ea; cbn [orb]; intros H.
  - rewrite (replace_key_hit _ _ _ Ea). cbn [fst]. now rewrite String.eqb_refl.
  - rewrite (replace_key_miss _ _ _ Ea), Ea. exact (IH H).
Qed.

Lemma find_replace_other k k' x l :
  k' <> k ->
  find (fun kv => String.eqb (fst kv) k') (map (replace_key k x) l)
  = find (fun kv => String.eqb (fst kv) k') l.
Proof.
  intros Hne. induction l as [| a l IH]; cbn [map find]; [reflexivity |].
  destruct (String.eqb (fst a) k) eqn:Ea.
  - rewrite (replace_key_hit _ _ _ Ea). cbn [fst]. apply String.eqb_eq in Ea. rewrite Ea.
    assert (Hk : String.eqb k k' = false) by (apply String.eqb_neq; congruence).
    now rewrite Hk.
  - rewrite (replace_key_miss _ _ _ Ea).
    destruct (String.eqb (fst a) k'); [reflexivity | exact IH].
Qed.

Lemma existsb_replace_other k k' x l :
  existsb (fun kv => String.eqb (fst kv) k') (map (replace_key k x) l)
  = existsb (fun kv => String.eqb (fst kv) k') l \/ k' = k.
Proof.
  destruct (String.eqb k' k) eqn:E; [right; now apply String.eqb_eq |]. left.
  induction l as [| a l IH]; cbn [map existsb]; [reflexivity |].
  destruct (String.eqb (fst a) k) eqn:Ea.
  - rewrite (replace_key_hit _ _ _ Ea). cbn [fst]. apply String.eqb_eq in Ea. rewrite Ea.
    rewrite String.eqb_sym in E. now rewrite E, IH.
  - rewrite (replace_key_miss _ _ _ Ea). now rewrite IH.
Qed.

Lemma setitem_obj kvs k x : exists v', py_setitem (JObj kvs) k x = inr v'.
Proof. simpl. destruct existsb; eauto. Qed.

Lemma setitem_same v k x v' : py_setitem v k x = inr v' -> py_getitem v' k = inr x.
Proof.
  destruct v as [| | | | | kvs]; simpl; try discriminate.
  destruct (existsb (fun kv => String.eqb (fst kv) k) kvs) eqn:He; intros H; injection H as <-.
  - simpl. rewrite <- map_rev.
    rewrite find_replace_same; [reflexivity |]. now rewrite existsb_rev.
  - simpl. rewrite rev_app_distr. simpl. now rewrite String.eqb_refl.
Qed.

Lemma setitem_other v k x v' k' :
  py_setitem v k x = inr v' -> k' <> k ->
  py_getitem v' k' = py_getitem v k' /\ py_contains k' v' = py_contains k' v.
Proof.
  intros H Hne. destruct v as [| | | | | kvs]; simpl in H; try discriminate.
  assert (Hk : String.eqb k k' = false) by (apply String.eqb_neq; congruence).
  destruct (existsb (fun kv => String.eqb (fst kv) k) kvs) eqn:He; injection H as <-.
  - simpl. rewrite <- map_rev, find_replace_other by exact Hne. split; [reflexivity |].
    destruct (existsb_replace_other k k' x kvs) as [-> | E]; [reflexivity | congruence].
  - simpl. rewrite rev_app_distr. simpl. rewrite Hk. split; [reflexivity |].
    rewrite existsb_app. simpl. now rewrite Hk, orb_false_r.
Qed.

Lemma any_system_skip pre rest :
  Forall (fun m => role_is_system m = inr false) pre ->
  py_any_system (pre ++ rest) = py_any_system rest.
Proof. induction 1 as [| m pre Hm _ IH]; simpl; [reflexivity |]. now rewrite Hm. Qed.

Lemma add_system_message_other prompt data d k :
  add_system_message prompt data = inr d -> k <> "messages" ->
  py_getitem d k = py_getitem data k /\ py_contains k d = py_contains k data.
Proof.
  intros H Hk. unfold add_system_message in H.
  destruct (py_contains "messages" data) as [e | []]; try discriminate;
    [| injection H as <-; auto].
  destruct (py_getitem data "messages") as [e | ms]; [discriminate |].
  destruct (py_iter ms) as [e | items]; [discriminate |].
  destruct (py_any_system items) as [e | []]; [discriminate | injection H as <-; auto |].
  destruct (py_insert0 ms (system_msg prompt)) as [e | ms']; [discriminate |].
  exact (setitem_other _ _ _ _ _ H Hk).
Qed.

(** Root server: a run that reaches the upstream call. *)
Lemma root_chat_body data p :
  r_body (root_chat data p)
  = match add_system_message plain_system_prompt data with
    | inl e => [FYield (OError e)]
    | inr d => FUpstream "/api/chat" d :: map FYield (relay_stream (p_chunks p) (p_end p))
    end.
Proof. reflexivity. Qed.

(** [X1].  The root server's [/api/chat] always declares
    [application/x-ndjson] (whatever [stream] says), and either yields one
    error object without any upstream call, or makes exactly one upstream
    call whose body agrees with the request body on every key other than
    [messages], then relays the upstream chunks in order (and an error
    object if the upstream stream raises). *)
Theorem root_chat_forwards_body data p :
  r_media_type (root_chat data p) = "application/x-ndjson" /\
  ((exists e, r_body (root_chat data p) = [FYield (OError e)]) \/
   exists d, r_body (root_chat data p)
             = FUpstream "/api/chat" d :: map FYield (relay_stream (p_chunks p) (p_end p)) /\
             forall k, k <> "messages" -> py_getitem d k = py_getitem data k).
Proof.
  split; [reflexivity |]. rewrite root_chat_body.
  destruct (add_system_message plain_system_prompt data) as [e | d] eqn:H; [left; eauto |].
  right. exists d. split; [reflexivity |].
  intros k Hk. exact (proj1 (add_system_message_other _ _ _ _ H Hk)).
Qed.

(** [X2].  The system-message step is idempotent: applied to the body it
    produced, it changes nothing more (the inserted message is found first,
    and [any] stops there). *)
Theorem add_system_message_idempotent prompt data d :
  add_system_message prompt data = inr d -> add_system_message prompt d = inr d.
Proof.
  intros H. unfold add_system_message in H.
  destruct (py_contains "messages" data) as [e | []] eqn:Hc; try discriminate.
  2: { injection H as <-. unfold add_system_message. now rewrite Hc. }
  destruct (py_getitem data "messages") as [e | ms] eqn:Hg; [discriminate |].
  destruct (py_iter ms) as [e | items] eqn:Hi; [discriminate |].
  destruct (py_any_system items) as [e | []] eqn:Ha; [discriminate | |].
  - injection H as <-. unfold add_system_message. now rewrite Hc, Hg, Hi, Ha.
  - destruct (py_insert0 ms (system_msg prompt)) as [e | ms'] eqn:Hn; [discriminate |].
    destruct ms as [| | | | l |]; simpl in Hn; try discriminate. injection Hn as <-.
    pose proof (setitem_same _ _ _ _ H) as Hs.
    unfold add_system_message. rewrite (getitem_contains _ _ _ Hs), Hs. reflexivity.
Qed.

(** [X3].  The role check reads the messages in order and stops at the
    first [system] one: if every message before [x] is a dict whose role is
    not [system], then [x] without a readable [role] (a dict without the
    key, a string, a list, a number) makes the root server yield that
    exception's error object and make no upstream call; and [x] with role
    [system] makes it forward the body unchanged, whatever follows [x]. *)
Theorem root_chat_role_scan data pre x post p :
  py_getitem data "messages" = inr (JArr (pre ++ x :: post)) ->
  Forall (fun m => role_is_system m = inr false) pre ->
  (forall e, py_getitem x "role" = inl e -> r_body (root_chat data p) = [FYield (OError e)]) /\
  (role_is_system x = inr true ->
   r_body (root_chat data p)
   = FUpstream "/api/chat" data :: map FYield (relay_stream (p_chunks p) (p_end p))).
Proof.
  intros Hg Hpre. rewrite root_chat_body. unfold add_system_message.
  rewrite (getitem_contains _ _ _ Hg), Hg. simpl py_iter. cbv iota beta.
  rewrite any_system_skip by exact Hpre. simpl py_any_system.
  split.
  - intros e He. unfold role_is_system. now rewrite He.
  - intros Hx. now rewrite Hx.
Qed.

Lemma add_system_message_not_list prompt data v :
  py_getitem data "messages" = inr v -> (forall l, v <> JArr l) ->
  exists e, add_system_message prompt data = inl e.
Proof.
  intros Hg Hv. unfold add_system_message. rewrite (getitem_contains _ _ _ Hg), Hg.
  destruct v as [| b | n | s | l | kvs]; simpl py_iter; cbv iota beta; eauto.
  - destruct (list_ascii_of_string s) as [| c cs]; simpl; eauto.
  - exfalso. exact (Hv l eq_refl).
  - destruct (dict_keys [] kvs) as [| k ks]; simpl; eauto.
Qed.

(** [X4].  A [messages] value that is not a list (a string, a dict, a
    number, [null], a boolean) never reaches the upstream model: both
    servers without tools answer with a single error object. *)
Theorem messages_not_list_rejected data v p :
  py_getitem data "messages" = inr v -> (forall l, v <> JArr l) ->
  (exists e, r_body (root_chat data p) = [FYield (OError e)]) /\
  (exists resp e, webui_chat data p = inr resp /\ r_body resp = [FYield (OError e)]).
Proof.
  intros Hg Hv.
  destruct (add_system_message_not_list plain_system_prompt data v Hg Hv) as [e He].
  split; [exists e; now rewrite root_chat_body, He |].
  destruct (getitem_obj _ _ _ Hg) as [kvs ->].
  unfold webui_chat, py_get. rewrite He.
  destruct (py_getitem (JObj kvs) "stream"); simpl; do 2 eexists; split; reflexivity.
Qed.


Lemma rewrite_prompt_other str_of data d k :
  rewrite_prompt str_of data = inr d -> k <> "prompt" ->
  py_getitem d k = py_getitem data k /\ py_contains k d = py_contains k data.
Proof.
  intros H Hk. unfold rewrite_prompt in H.
  destruct (py_contains "prompt" data) as [e | []]; try discriminate;
    [| injection H as <-; auto].
  destruct (py_getitem data "prompt") as [e | v]; [discriminate |].
  exact (setitem_other _ _ _ _ _ H Hk).
Qed.

(** [X6].  [/api/generate] of the servers without tools is served as
    [application/json]. For a dict body with a string [prompt] it makes one
    upstream call whose body has [prompt] prefixed once with
    [Process this request: ] and every other key unchanged; a body without
    [prompt] is forwarded as it is. The upstream chunks are relayed. *)
Theorem plain_generate_prompt str_of data p :
  r_media_type (plain_generate str_of data p) = "application/json" /\
  (forall s, py_getitem data "prompt" = inr (JStr s) ->
   exists d, r_body (plain_generate str_of data p)
             = FUpstream "/api/generate" d :: map FYield (relay_stream (p_chunks p) (p_end p)) /\
             py_getitem d "prompt" = inr (JStr ("Process this request: " ++ s)) /\
             forall k, k <> "prompt" -> py_getitem d k = py_getitem data k) /\
  (py_contains "prompt" data = inr false ->
   r_body (plain_generate str_of data p)
   = FUpstream "/api/generate" data :: map FYield (relay_stream (p_chunks p) (p_end p))).
Proof.
  split; [reflexivity |]. split.
  - intros s Hg. destruct (getitem_obj _ _ _ Hg) as [kvs Hd].
    destruct (setitem_obj kvs "prompt" (JStr ("Process this request: " ++ s))) as [d Hd'].
    assert (Hr : rewrite_prompt str_of data = inr d).
    { unfold rewrite_prompt. rewrite (getitem_contains _ _ _ Hg), Hg. simpl.
      now rewrite Hd. }
    exists d. unfold plain_generate. cbn [r_body]. rewrite Hr. split; [reflexivity |].
    split; [exact (setitem_same _ _ _ _ Hd') |].
    intros k Hk. exact (proj1 (rewrite_prompt_other _ _ _ _ Hr Hk)).
  - intros Hc. unfold plain_generate, rewrite_prompt. cbn [r_body]. now rewrite Hc.
Qed.

(** [X7].  The [metadata] block of the with-tools server's [generate] has
    no effect when [metadata] is absent or a dict: the endpoint then does
    exactly what the [generate] of the servers without tools does. *)
Theorem tools_generate_as_plain str_of data p :
  (py_contains "metadata" data = inr false \/
   exists kvs, py_getitem data "metadata" = inr (JObj kvs)) ->
  tools_generate str_of data p = plain_generate str_of data p.
Proof.
  intros Hm. unfold tools_generate, plain_generate.
  destruct (rewrite_prompt str_of data) as [e | d] eqn:Hr; [reflexivity |].
  assert (Hne : "metadata" <> "prompt") by discriminate.
  destruct (rewrite_prompt_other _ _ _ _ Hr Hne) as [Hg Hc].
  assert (Hi : inspect_metadata d = inr tt).
  { unfold inspect_metadata. destruct Hm as [Hm | [kvs Hm]].
    - now rewrite Hc, Hm.
    - rewrite <- Hg in Hm. rewrite (getitem_contains _ _ _ Hm), Hm.
      destruct (py_contains "task" (JObj kvs)) as [e | []] eqn:Ht; try reflexivity.
      + discriminate.
      + destruct (contains_getitem _ _ Ht) as [x Hx]. now rewrite Hx. }
  now rewrite Hi.
Qed.

(** [X8].  With [metadata] set to [null], a boolean or a number, the
    with-tools server's [generate] yields the [TypeError] of
    ["task" in data["metadata"]] and makes no upstream call, where the
    servers without tools forward the request. *)
Theorem tools_generate_scalar_metadata str_of data md p :
  py_getitem data "metadata" = inr md ->
  (md = JNull \/ (exists b, md = JBool b) \/ (exists n, md = JNum n)) ->
  r_body (tools_generate str_of data p)
  = [FYield (OError ("argument of type '" ++ py_type_name md ++ "' is not iterable"))] /\
  exists d, r_body (plain_generate str_of data p)
            = FUpstream "/api/generate" d :: map FYield (relay_stream (p_chunks p) (p_end p)).
Proof.
  intros Hg Hmd. destruct (getitem_obj _ _ _ Hg) as [kvs ->].
  assert (Hr : exists d, rewrite_prompt str_of (JObj kvs) = inr d).
  { unfold rewrite_prompt.
    destruct (py_contains "prompt" (JObj kvs)) as [e | []] eqn:Hc.
    - discriminate.
    - destruct (contains_getitem _ _ Hc) as [x Hx]. rewrite Hx. apply setitem_obj.
    - eauto. }
  destruct Hr as [d Hr].
  assert (Hne : "metadata" <> "prompt") by discriminate.
  destruct (rewrite_prompt_other _ _ _ _ Hr Hne) as [Hg' _]. rewrite <- Hg' in Hg.
  split.
  - unfold tools_generate, inspect_metadata. cbn [r_body]. rewrite Hr.
    rewrite (getitem_contains _ _ _ Hg), Hg.
    destruct Hmd as [-> | [[b ->] | [n ->]]]; reflexivity.
  - exists d. unfold plain_generate. cbn [r_body]. now rewrite Hr.
Qed.

End Forwarding.

(* ================================================================== *)
(** * More of [nba_tools.py] and its callers *)

Lemma find_ext_local {A} (f g : A -> bool) l :
  (forall x, f x = g x) -> find f l = find g l.
Proof. intros H. induction l as [| a l IH]; simpl; [reflexivity |]. now rewrite H, IH. Qed.

Lemma filter_ext_local {A} (f g : A -> bool) l :
  (forall x, f x = g x) -> filter f l = filter g l.
Proof. intros H. induction l as [| a l IH]; simpl; [reflexivity |]. now rewrite H, IH. Qed.

(** [X10].  In mock mode the first and last name of [get_player_info] are
    interchangeable: both are only looked for inside the lower-cased full
    name, so swapping them finds the same player. *)
Theorem mock_player_names_interchangeable api f l p :
  get_player_info true api f l = PPlayer p -> get_player_info true api l f = PPlayer p.
Proof.
  unfold get_player_info. rewrite orb_comm.
  destruct (String.eqb l "" || String.eqb f "") ; [discriminate |].
  rewrite (find_ext_local (player_matches l f) (player_matches f l)).
  - destruct (find (player_matches f l) MOCK_PLAYERS); [exact (fun H => H) | discriminate].
  - intros q. unfold player_matches. apply andb_comm.
Qed.

Lemma team_matches_lower n n' t :
  py_lower n = py_lower n' -> team_matches n t = team_matches n' t.
Proof. unfold team_matches. now intros ->. Qed.

(** [X11].  Team lookup ignores letter case, in both modes: two names with
    the same lower-cased form get the same answer, except that the
    not-found error repeats each name as given. *)
Theorem team_lookup_case_insensitive use_mock api n n' :
  py_lower n = py_lower n' -> n <> "" -> n' <> "" ->
  get_team_info use_mock api n' = get_team_info use_mock api n \/
  (get_team_info use_mock api n = PError ("No team found with name " ++ n) /\
   get_team_info use_mock api n' = PError ("No team found with name " ++ n')).
Proof.
  intros Hlow Hn Hn'. apply String.eqb_neq in Hn, Hn'.
  assert (Hf : forall ts, filter (team_matches n') ts = filter (team_matches n) ts)
    by (intros ts; apply filter_ext_local; intros t; symmetry; now apply team_matches_lower).
  unfold get_team_info. rewrite Hn, Hn'.
  destruct use_mock; [| destruct (teams_list api) as [e | ts]; [now left |]];
    rewrite Hf; unfold select_team;
    destruct (1 <? length _)%nat; try (now left);
    destruct (length _ =? 1)%nat; try (now left); now right.
Qed.

(** [X12].  In mock mode, once the three arguments pass validation,
    [get_game_info] compares the team names exactly (ignoring case): only
    ["Warriors"] at home against ["Lakers"] finds the mock game, for any
    non-zero season, the season playing no part in the search. *)
Theorem mock_game_info_exact_names api season home away :
  home <> "" -> away <> "" -> season <> 0%Z ->
  get_game_info true api season home away
  = if String.eqb (py_lower home) "warriors" && String.eqb (py_lower away) "lakers"
    then PGames MOCK_GAMES else PError "No games found".
Proof.
  intros Hh Ha Hs. apply String.eqb_neq in Hh, Ha. apply Z.eqb_neq in Hs.
  unfold get_game_info. rewrite Hh, Ha, Hs. unfold MOCK_GAMES. cbn [filter home_team visitor_team].
  change (py_lower (t_name warriors)) with "warriors".
  change (py_lower (t_name lakers)) with "lakers".
  rewrite (String.eqb_sym "warriors"), (String.eqb_sym "lakers").
  destruct (String.eqb (py_lower home) "warriors"), (String.eqb (py_lower away) "lakers");
    reflexivity.
Qed.

(** [X13].  Outside mock mode, a team returned by [get_team_info] is the
    one and only team of the provider's list whose name or full name
    contains the given name (ignoring case). *)
Theorem provider_team_unique_match api ts n t :
  teams_list api = inr ts -> get_team_info false api n = PTeam t ->
  filter (team_matches n) ts = [t] /\ In t ts /\ team_matches n t = true.
Proof.
  intros Hts. unfold get_team_info. destruct (String.eqb n ""); [discriminate |].
  rewrite Hts. unfold select_team.
  assert (Hin : forall x, In x (filter (team_matches n) ts) -> In x ts /\ team_matches n x = true)
    by (intros x; apply filter_In).
  destruct (filter (team_matches n) ts) as [| t0 [| t1 r]]; simpl; try discriminate.
  intros H. injection H as <-. split; [reflexivity |]. apply Hin. now left.
Qed.

(** [X14].  Outside mock mode, a list returned by [get_game_info] is never
    empty and holds exactly the provider's games for that season whose home
    and visitor team names contain the given names (ignoring case), in the
    provider's order. *)
Theorem provider_games_all_matches api season home away gs m :
  games_list api season = inr gs -> get_game_info false api season home away = PGames m ->
  m <> [] /\
  m = filter (fun g => py_str_in (py_lower home) (py_lower (t_name (home_team g)))
                       && py_str_in (py_lower away) (py_lower (t_name (visitor_team g)))) gs.
Proof.
  intros Hg. unfold get_game_info.
  destruct (String.eqb home ""); [discriminate |].
  destruct (String.eqb away ""); [discriminate |].
  destruct (Z.eqb season 0); [discriminate |]. rewrite Hg.
  match goal with |- context [filter ?f gs] => destruct (filter f gs) as [| g r] eqn:Hm end;
    simpl; [discriminate |].
  intros H. injection H as <-. split; [discriminate | reflexivity].
Qed.

(** [X15].  Of the two test scripts that call [nba_tools], the manual one
    ([test_nba_tools.py]) imports only defined names, while the unit-test
    module stops at its import with [ImportError] on [get_team_standings],
    so none of its tests can run. *)
Theorem test_scripts_imports :
  from_import "nba_tools" nba_tools_names test_nba_tools_imports = inr test_nba_tools_imports /\
  from_import "nba_tools" nba_tools_names unit_test_imports
  = inl "cannot import name 'get_team_standings' from 'nba_tools'".
Proof. split; vm_compute; reflexivity. Qed.

(* ================================================================== *)
(** * More of the tool-calling [generate_response] *)

Section ToolLoop.

Local Open Scope list_scope.

Variable loads : string -> decoded.
Variable use_tools : json -> string + string.
Variable tools : list json.

Lemma all_eq_repeat {A} (a : A) l : (forall x, In x l -> x = a) -> l = repeat a (length l).
Proof.
  induction l as [| x l IH]; simpl; intros H; [reflexivity |].
  f_equal; [apply H; now left | apply IH; intros y Hy; apply H; now right].
Qed.

Lemma loop_upstream_repeat fuel backend sf req l :
  retry_loop loads use_tools fuel backend 0 0 sf req = l ->
  upstream_calls (loop_trace l) = repeat req (length (upstream_calls (loop_trace l))).
Proof.
  intros <-. apply all_eq_repeat. intros x Hx.
  exact (retry_loop_upstream loads use_tools fuel backend 0 0 sf req x Hx).
Qed.

(** [X16].  On the tool-calling path every upstream call of a request is
    the same first request (same model, messages and tools), repeated as
    often as the loop iterates, followed by at most one further call: the
    one without tools that carries a tool result. *)
Theorem tool_path_upstream_requests fuel backend data :
  function_call (cr_metadata data) = true ->
  exists k,
    upstream_calls (o_trace (generate_response loads use_tools tools fuel backend data))
    = repeat (first_request tools data) k \/
    exists r,
      upstream_calls (o_trace (generate_response loads use_tools tools fuel backend data))
      = repeat (first_request tools data) k ++ [second_request data r].
Proof.
  intros Hf. unfold generate_response. rewrite Hf.
  destruct (retry_loop loads use_tools fuel backend 0 0 (is_streaming data)
              (first_request tools data)) as [tr r call | tr | tr] eqn:Hl;
    pose proof (loop_upstream_repeat _ _ _ _ _ Hl) as Hr; cbn [loop_trace] in Hr;
    cbn [o_trace].
  - eexists. right. exists r.
    rewrite upstream_calls_app, upstream_calls_cons_up, upstream_calls_yields, Hr.
    reflexivity.
  - eexists. left. exact Hr.
  - eexists. left. exact Hr.
Qed.

Lemma tool_path_upstream_in fuel backend data x :
  function_call (cr_metadata data) = true ->
  In x (upstream_calls (o_trace (generate_response loads use_tools tools fuel backend data))) ->
  x = first_request tools data \/ exists r, x = second_request data r.
Proof.
  intros Hf. unfold generate_response. rewrite Hf.
  destruct (retry_loop loads use_tools fuel backend 0 0 (is_streaming data)
              (first_request tools data)) as [tr r call | tr | tr] eqn:Hl;
    pose proof (retry_loop_upstream loads use_tools fuel backend 0 0 (is_streaming data)
                  (first_request tools data) x) as Hr;
    rewrite Hl in Hr; cbn [loop_trace] in Hr; cbn [o_trace].
  - rewrite upstream_calls_app, upstream_calls_cons_up, upstream_calls_yields.
    intros Hin. apply in_app_or in Hin. destruct Hin as [Hin | [<- | []]].
    + left. exact (Hr Hin).
    + right. eauto.
  - intros Hin. left. exact (Hr Hin).
  - intros Hin. left. exact (Hr Hin).
Qed.

(** [X17].  A request without [messages] gets no system prompt: on the
    tool-calling path every upstream call carries no system message (the
    first ones an empty conversation, the default list with the system
    prompt built just before being overwritten), and on the bypass path
    [data['messages']] raises, giving one error object and no upstream
    call. *)
Theorem no_messages_no_system_prompt fuel backend data :
  cr_messages data = None ->
  (function_call (cr_metadata data) = true ->
   forall r, In r (upstream_calls (o_trace (generate_response loads use_tools tools fuel backend data))) ->
   count_system (up_messages r) = 0) /\
  (function_call (cr_metadata data) = false ->
   generate_response loads use_tools tools fuel backend data
   = mkOutcome [EYield (OError "'messages'")] true).
Proof.
  intros Hm. split.
  - intros Hf r Hin.
    destruct (tool_path_upstream_in fuel backend data r Hf Hin) as [-> | [res ->]];
      unfold first_request, second_request, tool_path_messages; cbn [up_messages];
      rewrite Hm; reflexivity.
  - intros Hf. unfold generate_response. now rewrite Hf, Hm.
Qed.

Lemma fold_relay_raise streaming pre e :
  fold_right (relay_cons streaming) (ScanRaise [] e) pre
  = ScanRaise (if streaming then map OChunk pre else []) e.
Proof.
  induction pre as [| c pre IH]; simpl; [now destruct streaming |].
  rewrite IH. now destruct streaming.
Qed.

Lemma fold_relay_end streaming pre tc :
  fold_right (relay_cons streaming) (ScanEnd [] [] tc) pre
  = if streaming then ScanEnd (map OChunk pre) [] tc else ScanEnd [] pre tc.
Proof.
  induction pre as [| c pre IH]; simpl; [now destruct streaming |].
  rewrite IH. now destruct streaming.
Qed.

(** [X18].  A chunk that is not valid UTF-8, or that decodes to a value on
    which the tool-call test itself raises (a number, [null], or a
    [message] that is a number or [null], ...), ends the pass as a failed attempt,
    counted against the retry budget: the earlier chunks were relayed (in
    streaming mode; in buffered mode they are dropped) and the rest of the
    pass is never read. *)
Theorem detection_error_fails_attempt sf req p pre c rest e :
  p_chunks p = pre ++ c :: rest ->
  Forall (no_tool_chunk loads) pre ->
  (loads c = DecUnicodeError e \/ exists j, loads c = DecOk j /\ tool_calls_of j = inl e) ->
  attempt loads use_tools sf req p
  = StepFail (EUpstream req :: (if truthy sf then map (fun c => EYield (OChunk c)) pre else []))
      e.
Proof.
  intros Hp Hpre Hc. unfold attempt. rewrite Hp, (scan_prefix_no_tool loads _ _ _ _ Hpre).
  assert (Hs : scan loads (truthy sf) (c :: rest) (p_end p) = ScanRaise [] e).
  { simpl. destruct Hc as [-> | (j & -> & Hj)]; [reflexivity | now rewrite Hj]. }
  rewrite Hs, fold_relay_raise.
  destruct (truthy sf); [now rewrite map_map | reflexivity].
Qed.

(** [X19].  The chunk carrying [message.tool_calls] ends the pass
    ([break]): neither it nor any later chunk is relayed, and how the pass
    would have ended no longer matters. [use_tools] is then called once if
    [tool_calls] is truthy; an empty value only ends the iteration. *)
Theorem tool_call_chunk_ends_pass sf req p pre c rest j t :
  p_chunks p = pre ++ c :: rest ->
  Forall (no_tool_chunk loads) pre ->
  loads c = DecOk j -> tool_calls_of j = inr (Some t) ->
  attempt loads use_tools sf req p =
  (let tr := EUpstream req :: (if truthy sf then map (fun c => EYield (OChunk c)) pre
                               else [EYield (OBytes pre)]) in
   if truthy t then
     match use_tools t with
     | inl e => StepFail (tr ++ [EUseTools t (inl e)]) e
     | inr r => StepTool (tr ++ [EUseTools t (inr r)]) r
     end
   else StepNoTool tr).
Proof.
  intros Hp Hpre Hc Ht. unfold attempt. rewrite Hp, (scan_prefix_no_tool loads _ _ _ _ Hpre).
  assert (Hs : scan loads (truthy sf) (c :: rest) (p_end p) = ScanEnd [] [] (Some t)).
  { simpl. now rewrite Hc, Ht. }
  rewrite Hs, fold_relay_end.
  destruct (truthy sf); cbv zeta; [rewrite map_map, app_nil_r | ]; reflexivity.
Qed.

End ToolLoop.

(* ================================================================== *)
(** * Concrete runs of the properties above *)

Module ExtraRuns.

Local Open Scope list_scope.

Lemma add_system_message_idempotent_witness :
  add_system_message plain_system_prompt Ex2.chat_body = inr Ex2.chat_body_sent /\
  add_system_message plain_system_prompt Ex2.chat_body_sent = inr Ex2.chat_body_sent.
Proof.
  split; [vm_compute; reflexivity |].
  apply (add_system_message_idempotent plain_system_prompt Ex2.chat_body).
  vm_compute. reflexivity.
Defined.

Lemma root_chat_role_scan_witness :
  r_body (root_chat Ex2.no_role_body Ex2.pass_ab) = [FYield (OError "'role'")].
Proof.
  apply (proj1 (root_chat_role_scan Ex2.no_role_body [] Ex2.no_role_msg [] Ex2.pass_ab
                  ltac:(reflexivity) ltac:(constructor))).
  reflexivity.
Defined.

Lemma messages_not_list_rejected_witness :
  (exists e, r_body (root_chat Ex2.string_messages_body Ex2.pass_ab) = [FYield (OError e)]) /\
  (exists resp e, webui_chat Ex2.string_messages_body Ex2.pass_ab = inr resp /\
                  r_body resp = [FYield (OError e)]).
Proof.
  apply (messages_not_list_rejected Ex2.string_messages_body (JStr "hello") Ex2.pass_ab).
  - reflexivity.
  - intros l H. discriminate H.
Defined.


Lemma tools_generate_as_plain_witness :
  tools_generate Ex2.str_of Ex2.title_generate_body Ex2.pass_ab
  = plain_generate Ex2.str_of Ex2.title_generate_body Ex2.pass_ab.
Proof.
  apply tools_generate_as_plain. right. eexists. reflexivity.
Defined.

Lemma tools_generate_scalar_metadata_witness :
  r_body (tools_generate Ex2.str_of Ex2.null_metadata_body Ex2.pass_ab)
  = [FYield (OError ("argument of type '" ++ py_type_name JNull ++ "' is not iterable"))] /\
  exists d, r_body (plain_generate Ex2.str_of Ex2.null_metadata_body Ex2.pass_ab)
            = FUpstream "/api/generate" d
              :: map FYield (relay_stream (p_chunks Ex2.pass_ab) (p_end Ex2.pass_ab)).
Proof.
  apply (tools_generate_scalar_metadata Ex2.str_of Ex2.null_metadata_body JNull Ex2.pass_ab).
  - reflexivity.
  - now left.
Defined.

Lemma mock_player_names_interchangeable_witness :
  get_player_info true Ex.offline "Curry" "Stephen" = PPlayer Ex2.curry.
Proof.
  apply (mock_player_names_interchangeable Ex.offline "Stephen" "Curry").
  vm_compute. reflexivity.
Defined.

Lemma team_lookup_case_insensitive_witness :
  get_team_info true Ex.offline "lakers" = get_team_info true Ex.offline "LAKERS" \/
  (get_team_info true Ex.offline "LAKERS" = PError ("No team found with name " ++ "LAKERS") /\
   get_team_info true Ex.offline "lakers" = PError ("No team found with name " ++ "lakers")).
Proof.
  apply team_lookup_case_insensitive; [vm_compute; reflexivity | discriminate | discriminate].
Defined.

Lemma mock_game_info_exact_names_witness :
  get_game_info true Ex.offline 1999 "WARRIORS" "lakers" = PGames MOCK_GAMES.
Proof.
  rewrite (mock_game_info_exact_names Ex.offline 1999 "WARRIORS" "lakers");
    [vm_compute; reflexivity | discriminate | discriminate | discriminate].
Defined.

Lemma provider_team_unique_match_witness :
  filter (team_matches "Lakers") MOCK_TEAMS = [lakers] /\ In lakers MOCK_TEAMS /\
  team_matches "Lakers" lakers = true.
Proof.
  apply (provider_team_unique_match Ex2.mock_api MOCK_TEAMS "Lakers" lakers);
    vm_compute; reflexivity.
Defined.

Lemma provider_games_all_matches_witness :
  MOCK_GAMES <> [] /\
  MOCK_GAMES = filter (fun g => py_str_in (py_lower "War") (py_lower (t_name (home_team g)))
                                && py_str_in (py_lower "Lak") (py_lower (t_name (visitor_team g))))
                 MOCK_GAMES.
Proof.
  apply (provider_games_all_matches Ex2.mock_api 2024 "War" "Lak" MOCK_GAMES MOCK_GAMES);
    vm_compute; reflexivity.
Defined.

Lemma tool_path_upstream_requests_witness :
  exists k,
    upstream_calls (o_trace (Ex.run 5 Ex.backend_tool Ex.req_stream))
    = repeat (first_request Ex.tools Ex.req_stream) k \/
    exists r,
      upstream_calls (o_trace (Ex.run 5 Ex.backend_tool Ex.req_stream))
      = repeat (first_request Ex.tools Ex.req_stream) k ++ [second_request Ex.req_stream r].
Proof. apply tool_path_upstream_requests. reflexivity. Defined.

Lemma no_messages_no_system_prompt_witness :
  (function_call (cr_metadata Ex2.req_no_messages) = true ->
   forall r, In r (upstream_calls (o_trace (Ex.run 5 Ex.backend_tool Ex2.req_no_messages))) ->
   count_system (up_messages r) = 0) /\
  (function_call (cr_metadata Ex2.req_no_messages) = false ->
   Ex.run 5 Ex.backend_tool Ex2.req_no_messages = mkOutcome [EYield (OError "'messages'")] true).
Proof. apply no_messages_no_system_prompt. reflexivity. Defined.

Lemma detection_error_fails_attempt_witness :
  attempt json_loads Ex.use_tools (JBool true) (first_request Ex.tools Ex.req_stream)
    (mkPass [Ex2.number_chunk; Ex.answer_chunk] Completes)
  = StepFail (EUpstream (first_request Ex.tools Ex.req_stream) :: [])
      "argument of type 'int' is not iterable".
Proof.
  apply (detection_error_fails_attempt json_loads Ex.use_tools (JBool true)
           (first_request Ex.tools Ex.req_stream)
           (mkPass [Ex2.number_chunk; Ex.answer_chunk] Completes) [] Ex2.number_chunk
           [Ex.answer_chunk]).
  - reflexivity.
  - constructor.
  - right. exists (JNum "5"). split; vm_compute; reflexivity.
Defined.

Lemma tool_call_chunk_ends_pass_witness :
  attempt json_loads Ex.use_tools (JBool true) (first_request Ex.tools Ex.req_stream) Ex2.tool_pass
  = (let tr := EUpstream (first_request Ex.tools Ex.req_stream)
               :: (if truthy (JBool true) then map (fun c => EYield (OChunk c)) [Ex.answer_chunk]
                   else [EYield (OBytes [Ex.answer_chunk])]) in
     let t := Ex2.tool_calls_or_null (Ex2.decoded_or_null Ex.tool_chunk) in
     if truthy t then
       match Ex.use_tools t with
       | inl e => StepFail (tr ++ [EUseTools t (inl e)]) e
       | inr r => StepTool (tr ++ [EUseTools t (inr r)]) r
       end
     else StepNoTool tr).
Proof.
  apply (tool_call_chunk_ends_pass json_loads Ex.use_tools (JBool true)
           (first_request Ex.tools Ex.req_stream) Ex2.tool_pass [Ex.answer_chunk] Ex.tool_chunk
           [Ex.final_chunk] (Ex2.decoded_or_null Ex.tool_chunk)).
  - reflexivity.
  - constructor; [| constructor]. right. exists (Ex2.decoded_or_null Ex.answer_chunk).
    split; vm_compute; reflexivity.
  - vm_compute. reflexivity.
  - vm_compute. reflexivity.
Defined.

End ExtraRuns.
